(** * figma_gpt_app: frame extraction and feature generation

    A shallow embedding of [figma_gpt_app.py].  The script reads a design
    document over HTTP, collects the names of the frames found two levels
    below the document root, asks a chat-completion service for feature
    suggestions and parses the reply.

    Python values that come out of a JSON decoder are embedded as the
    inductive type [json]; dynamic failures ([AttributeError], [TypeError],
    ...) are values of [exn], and a computation that may raise lives in the
    error monad [sum exn].  Code that talks to the network or prints runs in
    [eitherT exn (state world)], where [world] records every request sent
    and every text printed, so that a raised exception keeps the record of
    what happened before it. *)

From Stdlib Require Import ZArith List String Ascii Bool Lia.
From Stdlib Require Import Floats.PrimFloat Floats.SpecFloat Floats.FloatOps.
From Stdlib Require Import DecimalString.
From ExtLib Require Import Structures.Monad Structures.MonadState Structures.MonadExc.
From ExtLib Require Import Data.Monads.StateMonad Data.Monads.EitherMonad.
Import ListNotations.
Import MonadNotation.
Local Open Scope monad_scope.
Local Open Scope string_scope.
Local Open Scope Z_scope.
Local Set Warnings "-register-all".

(** ** Python values *)

Module Py.

(** What [json.loads] and [Response.json()] can return: [None], [bool],
    [int], [float], [str], [list] and [dict].  A [dict] is kept as an
    association list in insertion order (the order [json.dumps] writes);
    a lookup reads the first binding of a key.  A [string] stands for a
    Python [str]. *)
Inductive json : Type :=
| JNull
| JBool (b : bool)
| JInt (z : Z)
| JFloat (f : float)
| JStr (s : string)
| JArr (items : list json)
| JObj (fields : list (string * json)).

Definition dict := list (string * json).

Fixpoint dict_get (d : dict) (k : string) : option json :=
  match d with
  | [] => None
  | (k', v) :: d' => if String.eqb k' k then Some v else dict_get d' k
  end.

(** [bool(v)], the test an [if v:] performs. *)
Definition truthy (v : json) : bool :=
  match v with
  | JNull => false
  | JBool b => b
  | JInt z => negb (z =? 0)
  | JFloat f => negb (PrimFloat.eqb f 0%float)
  | JStr s => negb (String.eqb s "")
  | JArr items => match items with [] => false | _ :: _ => true end
  | JObj fields => match fields with [] => false | _ :: _ => true end
  end.

(** [v == s] for a string literal [s]. *)
Definition eq_str (v : json) (s : string) : bool :=
  match v with
  | JStr t => String.eqb t s
  | _ => false
  end.

(** [isinstance(v, dict)]. *)
Definition isinstance_dict (v : json) : bool :=
  match v with
  | JObj _ => true
  | _ => false
  end.

End Py.
Export Py.

(** ** HTTP messages, as the [requests] library shows them *)

Inductive http_method : Type := GET | POST.

Record request : Type := mkRequest {
  req_method : http_method;
  req_url : string;
  req_headers : list (string * string);
  req_data : option string
}.

Record response : Type := mkResponse {
  status_code : Z;
  text : string
}.

(** ** Exceptions *)

Inductive exn : Type :=
| AttributeError
| TypeError
| IndexError
| KeyError
| JSONDecodeError
| RecursionError
| ValueError
| HTTPError (resp : response).

(** A computation that returns a value or raises. *)
Definition result : Type -> Type := sum exn.

Abbreviation Ok := (@inr exn _).
Abbreviation Raise := (@inl exn _).

(** ** Built-in operations on dynamically typed values *)

(** [v.get(k, default)]: only a [dict] has the method. *)
Definition py_get (v : json) (k : string) (default : json) : result json :=
  match v with
  | JObj d =>
      match dict_get d k with
      | Some x => Ok x
      | None => Ok default
      end
  | _ => Raise AttributeError
  end.

(** The elements a [for x in v] loop visits: the items of a list, the keys
    of a dict, the one-character substrings of a str; any other value is
    not iterable. *)
Definition py_iter (v : json) : result (list json) :=
  match v with
  | JArr items => Ok items
  | JObj fields => Ok (map (fun kv => JStr (fst kv)) fields)
  | JStr s => Ok (map (fun c => JStr (String c EmptyString)) (list_ascii_of_string s))
  | _ => Raise TypeError
  end.

(** [v[0]]. A decoded dict has string keys only, so the key [0] is never
    found. *)
Definition py_index0 (v : json) : result json :=
  match v with
  | JArr [] => Raise IndexError
  | JArr (x :: _) => Ok x
  | JStr EmptyString => Raise IndexError
  | JStr (String c _) => Ok (JStr (String c EmptyString))
  | JObj _ => Raise KeyError
  | _ => Raise TypeError
  end.

(** The body of a [for] loop that updates an accumulator, run over the
    elements in order; the first exception ends the loop. *)
Fixpoint for_each {A S : Type} (xs : list A) (body : A -> S -> result S) (s : S)
  : result S :=
  match xs with
  | [] => Ok s
  | x :: xs' =>
      match body x s with
      | inr s' => for_each xs' body s'
      | inl e => Raise e
      end
  end.

(** ** [extract_frame_names] *)

(** The body of the inner loop (lines 93-96). *)
Definition visit_node (node : json) (frames : list json) : result (list json) :=
  ty <- py_get node "type" JNull ;;
  if eq_str ty "FRAME" then
    name <- py_get node "name" JNull ;;
    if truthy name then Ok (frames ++ [name])%list else Ok frames
  else Ok frames.

(** The body of the outer loop (lines 92-96). *)
Definition visit_page (page : json) (frames : list json) : result (list json) :=
  children <- py_get page "children" (JArr []) ;;
  nodes <- py_iter children ;;
  for_each nodes visit_node frames.

Definition extract_frame_names (file_data : json) : result (list json) :=
  let frames := [] in
  document <- py_get file_data "document" (JObj []) ;;
  pages <- py_get document "children" (JArr []) ;;
  pages_seq <- py_iter pages ;;
  for_each pages_seq visit_page frames.

(** ** The world outside the process *)

(** Every request sent and the text of every [print] call, oldest first. *)
Record world : Type := mkWorld {
  sent : list request;
  stdout : list string
}.

Definition IO : Type -> Type := eitherT exn (state world).

Definition run {A : Type} (c : IO A) (w : world) : result A * world :=
  runState (unEitherT c) w.

Definition lift_result {A : Type} (r : result A) : IO A :=
  mkEitherT (ret r).

(** What the script takes from its libraries and from the network:
    [json.loads] on a [str], which returns the decoded value or raises (a
    [json.JSONDecodeError] on a text that is not JSON, but also a
    [RecursionError] on a text nested too deep and a [ValueError] on an
    integer literal beyond the interpreter's digit limit), [json.dumps],
    [str()] of a value that is not a [str], and the answer the remote side
    gives to a request.  The model covers the runs in which the remote side
    answers; a connection that fails is not modelled. *)
Class Platform : Type := {
  json_loads : string -> result json;
  json_dumps : json -> string;
  py_str : json -> string;
  remote : request -> response
}.

Definition nl : string := String "010"%char EmptyString.

(** [s.rstrip(c)] for a one-character [c]. *)
Fixpoint rstrip (s : string) (c : ascii) : string :=
  match s with
  | EmptyString => EmptyString
  | String a s' =>
      match rstrip s' c with
      | EmptyString => if Ascii.eqb a c then EmptyString else String a EmptyString
      | r => String a r
      end
  end.

(** [sep.join(xs)]: every element has to be a [str]. *)
Fixpoint as_strs (xs : list json) : result (list string) :=
  match xs with
  | [] => Ok []
  | JStr s :: xs' => rest <- as_strs xs' ;; Ok (s :: rest)
  | _ :: _ => Raise TypeError
  end.

Definition py_join (sep : string) (xs : list json) : result string :=
  strs <- as_strs xs ;;
  Ok (String.concat sep strs).

(** [v[k]] for a string key [k]. *)
Definition py_getitem (v : json) (k : string) : result json :=
  match v with
  | JObj d =>
      match dict_get d k with
      | Some x => Ok x
      | None => Raise KeyError
      end
  | _ => Raise TypeError
  end.

(** [str(len(xs))]. *)
Definition len_str {A : Type} (xs : list A) : string :=
  NilEmpty.string_of_uint (Nat.to_uint (List.length xs)).

(** [bool(os.environ.get(k))]. *)
Definition env_truthy (o : option string) : bool :=
  match o with
  | Some s => negb (String.eqb s "")
  | None => false
  end.

Definition env_value (o : option string) : string :=
  match o with
  | Some s => s
  | None => ""
  end.

Section Program.

Context {platform : Platform}.

(** *** The [requests] library *)

Definition send (rq : request) : IO response :=
  w <- get ;;
  put (mkWorld (sent w ++ [rq])%list (stdout w)) ;;
  ret (remote rq).

Definition requests_get (url : string) (headers : list (string * string)) : IO response :=
  send (mkRequest GET url headers None).

Definition requests_post (url : string) (headers : list (string * string)) (data : string)
  : IO response :=
  send (mkRequest POST url headers (Some data)).

(** [Response.raise_for_status], as the [requests] library defines it: a
    status from 400 to 499 (client error) or from 500 to 599 (server error)
    raises [HTTPError] with the response attached; any other status does
    nothing. *)
Definition raise_for_status (resp : response) : result unit :=
  if (400 <=? status_code resp) && (status_code resp <? 600)
  then Raise (HTTPError resp)
  else Ok tt.

(** [Response.ok], as the library defines it: [raise_for_status] does not
    raise. *)
Definition ok (resp : response) : bool :=
  match raise_for_status resp with
  | inl _ => false
  | inr _ => true
  end.

(** The guard [if not resp.ok: resp.raise_for_status()]. *)
Definition status_guard (resp : response) : IO unit :=
  if negb (ok resp) then lift_result (raise_for_status resp) else ret tt.

(** [Response.json()]: the body through [json.loads]; what that raises
    reaches the caller. *)
Definition response_json (resp : response) : result json :=
  json_loads (text resp).

Definition py_print (line : string) : IO unit :=
  w <- get ;;
  put (mkWorld (sent w) (stdout w ++ [line])%list).

(** [json.loads(v)]: a value that is not a [str] is a [TypeError]. *)
Definition py_json_loads (v : json) : result json :=
  match v with
  | JStr s => json_loads s
  | _ => Raise TypeError
  end.

(** [f"{v}"]. *)
Definition format_value (v : json) : string :=
  match v with
  | JStr s => s
  | _ => py_str v
  end.

(** *** [FigmaClient] *)

Record FigmaClient : Type := mkFigmaClient {
  token : string;
  base_url : string
}.

Definition default_base_url : string := "https://api.figma.com/v1".

Definition FigmaClient_init (token base_url : string) : FigmaClient :=
  mkFigmaClient token (rstrip base_url "/"%char).

Definition _headers (self : FigmaClient) : list (string * string) :=
  [("X-Figma-Token", token self)].

Definition get_file (self : FigmaClient) (file_key : string) : IO json :=
  let url := base_url self ++ "/files/" ++ file_key in
  resp <- requests_get url (_headers self) ;;
  status_guard resp ;;
  lift_result (response_json resp).

(** *** [generate_features_from_figma] *)

Definition default_model : string := "gpt-4".
Definition default_temperature : float := 0x1.999999999999ap-3%float.
Definition default_max_tokens : Z := 512.

Definition framing_text : string :=
  "The following is a list of design sections extracted from a Figma "
  ++ "file.  For each section, suggest a concise feature title and a short "
  ++ "description (one sentence) suitable for inclusion in a product "
  ++ "requirements document.  Respond with a JSON array where each element "
  ++ "has 'title' and 'description' fields." ++ nl.

Definition bullet (name : string) : string := "- " ++ name.

Definition build_prompt (frame_names_list : list string) : string :=
  let frames_formatted := String.concat nl (map bullet frame_names_list) in
  framing_text ++ nl ++ "Design sections:" ++ nl ++ frames_formatted ++ nl.

Definition system_message : json :=
  JObj [("role", JStr "system"); ("content", JStr "You are a helpful product manager.")].

Definition user_message (prompt : string) : json :=
  JObj [("role", JStr "user"); ("content", JStr prompt)].

Definition completion_url : string := "https://api.openai.com/v1/chat/completions".

(** [data.get("choices", [{}])[0].get("message", {}).get("content", "")]. *)
Definition first_choice_content (data : json) : result json :=
  choices <- py_get data "choices" (JArr [JObj []]) ;;
  choice <- py_index0 choices ;;
  message <- py_get choice "message" (JObj []) ;;
  py_get message "content" (JStr "").

(** One step of the list comprehension (lines 164-170): an element that
    is a dict adds a record, any other element adds nothing. *)
Definition keep_feature (item : json) (acc : list json) : result (list json) :=
  if isinstance_dict item then
    title <- py_get item "title" (JStr "Untitled Feature") ;;
    description <- py_get item "description" (JStr "") ;;
    Ok (acc ++ [JObj [("title", title); ("description", description)]])%list
  else Ok acc.

(** The [try] block and its [except json.JSONDecodeError] handler. *)
Definition parse_features (content : json) : result (list json) :=
  catch
    (features <- py_json_loads content ;;
     items <- py_iter features ;;
     for_each items keep_feature [])
    (fun e =>
       match e with
       | JSONDecodeError =>
           Ok [JObj [("title", JStr "Model response"); ("description", content)]]
       | _ => Raise e
       end).

Definition completion_headers (openai_api_key : string) : list (string * string) :=
  [("Authorization", "Bearer " ++ openai_api_key);
   ("Content-Type", "application/json")].

Definition completion_body
    (frame_names_list : list string)
    (model : string) (temperature : float) (max_tokens : Z) : json :=
  let prompt := build_prompt frame_names_list in
  let messages := JArr [system_message; user_message prompt] in
  JObj [("model", JStr model);
        ("temperature", JFloat temperature);
        ("max_tokens", JInt max_tokens);
        ("messages", messages);
        ("n", JInt 1)].

Definition generate_features_from_figma
    (frame_names : list string) (openai_api_key : string)
    (model : string) (temperature : float) (max_tokens : Z) : IO (list json) :=
  let frame_names_list := frame_names in
  match frame_names_list with
  | [] => ret []
  | _ :: _ =>
      let headers := completion_headers openai_api_key in
      let body := completion_body frame_names_list model temperature max_tokens in
      let url := completion_url in
      resp <- requests_post url headers (json_dumps body) ;;
      status_guard resp ;;
      data <- lift_result (response_json resp) ;;
      content <- lift_result (first_choice_content data) ;;
      lift_result (parse_features content)
  end.

(** The one request a call with at least one name sends. *)
Definition completion_request
    (frame_names_list : list string) (openai_api_key : string)
    (model : string) (temperature : float) (max_tokens : Z) : request :=
  mkRequest POST completion_url (completion_headers openai_api_key)
    (Some (json_dumps (completion_body frame_names_list model temperature max_tokens))).

(** *** [main] *)

Definition guidance : string :=
  "FIGMA_TOKEN, FIGMA_FILE_KEY and OPENAI_API_KEY environment variables "
  ++ "must be set to run this example.".

Fixpoint print_features (features : list json) : IO unit :=
  match features with
  | [] => ret tt
  | feature :: rest =>
      title <- lift_result (py_getitem feature "title") ;;
      description <- lift_result (py_getitem feature "description") ;;
      py_print ("- " ++ format_value title ++ ": " ++ format_value description) ;;
      print_features rest
  end.

Definition main (environ : string -> option string) : IO unit :=
  let figma_token := environ "FIGMA_TOKEN" in
  let figma_file_key := environ "FIGMA_FILE_KEY" in
  let openai_key := environ "OPENAI_API_KEY" in
  if negb (env_truthy figma_token && env_truthy figma_file_key && env_truthy openai_key)
  then py_print guidance
  else
    let figma_client := FigmaClient_init (env_value figma_token) default_base_url in
    file_data <- get_file figma_client (env_value figma_file_key) ;;
    frame_names <- lift_result (extract_frame_names file_data) ;;
    match frame_names with
    | [] => py_print "No frames were found in the Figma document."
    | _ :: _ =>
        joined <- lift_result (py_join ", " frame_names) ;;
        names <- lift_result (as_strs frame_names) ;;
        py_print ("Found " ++ len_str frame_names ++ " top‑level frame(s): " ++ joined) ;;
        features <- generate_features_from_figma names (env_value openai_key)
                      default_model default_temperature default_max_tokens ;;
        py_print (nl ++ "Generated feature suggestions:" ++ nl) ;;
        print_features features
    end.

End Program.

(** ** The extraction and the normalisation, as the specification words them *)

Module Spec.

(** The children of a node; a node without the key has none. *)
Definition children_of (n : json) : list json :=
  match n with
  | JObj d =>
      match dict_get d "children" with
      | Some (JArr items) => items
      | _ => []
      end
  | _ => []
  end.

(** The root node of a document. *)
Definition root_of (file_data : json) : json :=
  match file_data with
  | JObj d =>
      match dict_get d "document" with
      | Some r => r
      | None => JObj []
      end
  | _ => JObj []
  end.

(** The pages: the immediate children of the root. *)
Definition pages_of (file_data : json) : list json :=
  children_of (root_of file_data).

(** The nodes at depth two: the immediate children of the pages, page by
    page. *)
Definition depth_two_nodes (file_data : json) : list json :=
  flat_map children_of (pages_of file_data).

(** The type tag is the container marker and the name is not empty. *)
Definition is_named_frame (n : json) : bool :=
  match n with
  | JObj d =>
      match dict_get d "type", dict_get d "name" with
      | Some ty, Some name => eq_str ty "FRAME" && truthy name
      | _, _ => false
      end
  | _ => false
  end.

Definition node_name (n : json) : json :=
  match n with
  | JObj d =>
      match dict_get d "name" with
      | Some name => name
      | None => JNull
      end
  | _ => JNull
  end.

Definition frame_names (file_data : json) : list json :=
  map node_name (filter is_named_frame (depth_two_nodes file_data)).

(** What one node and one page add to the output. *)
Definition node_frames (node : json) : list json :=
  if is_named_frame node then [node_name node] else [].

Definition page_frames (page : json) : list json :=
  map node_name (filter is_named_frame (children_of page)).

(** A feature record: [title] and [description] of the source object,
    each with its default. *)
Definition feature_record (item : json) : json :=
  match item with
  | JObj d =>
      JObj [("title", match dict_get d "title" with
                      | Some t => t
                      | None => JStr "Untitled Feature"
                      end);
            ("description", match dict_get d "description" with
                            | Some t => t
                            | None => JStr ""
                            end)]
  | _ => JNull
  end.

Definition features_of (items : list json) : list json :=
  map feature_record (filter isinstance_dict items).

End Spec.

(** ** The shape of a design document

    The response body of the design service,
    [{"document": {"children": [{"children": [{...}, ...]}, ...]}}],
    with every key optional: a value found under ["document"] is a
    mapping, a value found under ["children"] is a sequence of mappings. *)

Definition sequence_of (elem_ok : json -> bool) (v : option json) : bool :=
  match v with
  | None => true
  | Some (JArr items) => forallb elem_ok items
  | Some _ => false
  end.

Definition shaped_page (page : json) : bool :=
  match page with
  | JObj d => sequence_of isinstance_dict (dict_get d "children")
  | _ => false
  end.

Definition shaped_root (root : json) : bool :=
  match root with
  | JObj d => sequence_of shaped_page (dict_get d "children")
  | _ => false
  end.

Definition shaped_file (file_data : json) : bool :=
  match file_data with
  | JObj d =>
      match dict_get d "document" with
      | Some root => shaped_root root
      | None => true
      end
  | _ => false
  end.

(** A completion reply's content that decodes to a value a [for] loop
    cannot visit: a number, a boolean or [null]. *)
Definition is_scalar (v : json) : bool :=
  match v with
  | JNull | JBool _ | JInt _ | JFloat _ => true
  | _ => false
  end.

Definition login_document : json :=
  JObj [("document", JObj [("children", JArr [
    JObj [("children", JArr [
      JObj [("type", JStr "FRAME"); ("name", JStr "Login")];
      JObj [("type", JStr "GROUP"); ("name", JStr "Ignored")];
      JObj [("type", JStr "FRAME"); ("name", JStr "Login")]])]])])].

Definition no_pages_document : json :=
  JObj [("document", JObj [("children", JArr [])])].

Definition groups_only_document : json :=
  JObj [("document", JObj [("children", JArr [
    JObj [("children", JArr [
      JObj [("type", JStr "GROUP"); ("name", JStr "Toolbar")];
      JObj [("type", JStr "FRAME"); ("name", JStr "")]])];
    JObj [("name", JStr "Empty page")]])])].

Definition sparse_document : json :=
  JObj [("document", JObj [("children", JArr [
    JObj [("name", JStr "Page without children")];
    JObj [("children", JArr [
      JObj [("name", JStr "No type")];
      JObj [("type", JStr "FRAME")];
      JObj [("type", JStr "FRAME"); ("name", JStr "")];
      JObj [("type", JStr "FRAME"); ("name", JStr "Home")]])]])])].

(** ** A test double for the platform

    A decoder and an encoder for running the program on concrete inputs,
    and a canned server.  The decoder reads JSON texts as [json.loads]
    does, for the texts whose numbers are integers and whose [\u] escapes
    stay below 128; a duplicate key keeps its first position and its last
    value.  A text that is not JSON is a [JSONDecodeError]; values nested
    [recursion_limit] deep are a [RecursionError] and an integer literal of
    more than [max_str_digits] digits is a [ValueError].  The encoder writes a JSON text of the value it is given, in the
    layout of [json.dumps]. *)

Module Decoder.

Local Open Scope char_scope.
Local Open Scope Z_scope.

Definition dq : ascii := "034".
Definition backslash : ascii := "092".

Definition code (c : ascii) : Z := Z.of_nat (nat_of_ascii c).

Definition is_ws (c : ascii) : bool :=
  match c with
  | " " | "009" | "010" | "013" => true
  | _ => false
  end.

Fixpoint skip_ws (cs : list ascii) : list ascii :=
  match cs with
  | c :: cs' => if is_ws c then skip_ws cs' else cs
  | [] => []
  end.

Definition digit_of (c : ascii) : option Z :=
  if (48 <=? code c) && (code c <=? 57) then Some (code c - 48) else None.

Definition hex_of (c : ascii) : option Z :=
  if (48 <=? code c) && (code c <=? 57) then Some (code c - 48)
  else if (97 <=? code c) && (code c <=? 102) then Some (code c - 87)
  else if (65 <=? code c) && (code c <=? 70) then Some (code c - 55)
  else None.

(** The interpreter's limits: the depth of nested values at which the
    decoder gives up, and the longest integer literal it converts. *)
Definition recursion_limit : nat := 1000.
Definition max_str_digits : nat := 4300.

(** The outcome of reading a piece of the text: the piece and the rest,
    or the exception. *)
Definition parsed (A : Type) : Type := result (A * list ascii).

Definition invalid {A : Type} : parsed A := inl JSONDecodeError.

(** The digits at the head of [cs]: their value, their number, the rest. *)
Fixpoint read_digits (acc : Z) (count : nat) (cs : list ascii)
  : Z * nat * list ascii :=
  match cs with
  | c :: cs' =>
      match digit_of c with
      | Some d => read_digits (10 * acc + d) (S count) cs'
      | None => (acc, count, cs)
      end
  | [] => (acc, count, cs)
  end.

Definition starts_fraction (cs : list ascii) : bool :=
  match cs with
  | "." :: _ | "e" :: _ | "E" :: _ => true
  | _ => false
  end.

(** An integer literal: [0] or a digit string without a leading zero; one
    of more than [max_str_digits] digits is a [ValueError]. *)
Definition parse_nat_literal (cs : list ascii) : parsed Z :=
  match cs with
  | "0" :: rest => if starts_fraction rest then invalid else inr (0, rest)
  | c :: rest =>
      match digit_of c with
      | Some d =>
          let '(n, count, rest') := read_digits d 1 rest in
          if starts_fraction rest' then invalid
          else if (max_str_digits <? count)%nat then inl ValueError
          else inr (n, rest')
      | None => invalid
      end
  | [] => invalid
  end.

Definition parse_number (cs : list ascii) : parsed json :=
  match cs with
  | "N" :: "a" :: "N" :: rest => inr (JFloat nan, rest)
  | "I" :: "n" :: "f" :: "i" :: "n" :: "i" :: "t" :: "y" :: rest =>
      inr (JFloat infinity, rest)
  | "-" :: "I" :: "n" :: "f" :: "i" :: "n" :: "i" :: "t" :: "y" :: rest =>
      inr (JFloat neg_infinity, rest)
  | "-" :: rest =>
      match parse_nat_literal rest with
      | inr (n, rest') => inr (JInt (- n), rest')
      | inl e => inl e
      end
  | _ =>
      match parse_nat_literal cs with
      | inr (n, rest') => inr (JInt n, rest')
      | inl e => inl e
      end
  end.

Definition unescape (c : ascii) : option ascii :=
  match c with
  | "034" => Some "034"
  | "092" => Some "092"
  | "/" => Some "/"
  | "b" => Some "008"
  | "f" => Some "012"
  | "n" => Some "010"
  | "r" => Some "013"
  | "t" => Some "009"
  | _ => None
  end.

Definition hex4 (a b c d : ascii) : option Z :=
  match hex_of a, hex_of b, hex_of c, hex_of d with
  | Some x, Some y, Some z, Some w => Some (((x * 16 + y) * 16 + z) * 16 + w)
  | _, _, _, _ => None
  end.

(** The characters of a string literal after its opening quote. *)
Fixpoint parse_string_body (cs : list ascii) : option (string * list ascii) :=
  match cs with
  | [] => None
  | "034" :: rest => Some (EmptyString, rest)
  | "092" :: "u" :: a :: b :: c :: d :: rest =>
      match hex4 a b c d with
      | Some n =>
          if n <? 128 then
            match parse_string_body rest with
            | Some (s, rest') => Some (String (ascii_of_nat (Z.to_nat n)) s, rest')
            | None => None
            end
          else None
      | None => None
      end
  | "092" :: e :: rest =>
      match unescape e with
      | Some c =>
          match parse_string_body rest with
          | Some (s, rest') => Some (String c s, rest')
          | None => None
          end
      | None => None
      end
  | "092" :: [] => None
  | c :: rest =>
      if code c <? 32 then None
      else
        match parse_string_body rest with
        | Some (s, rest') => Some (String c s, rest')
        | None => None
        end
  end.

Fixpoint dict_set (d : dict) (k : string) (v : json) : dict :=
  match d with
  | [] => [(k, v)]
  | (k', v') :: d' =>
      if String.eqb k' k then (k', v) :: d' else (k', v') :: dict_set d' k v
  end.

Definition dict_of_pairs (pairs : list (string * json)) : dict :=
  fold_left (fun d kv => dict_set d (fst kv) (snd kv)) pairs [].

(** The value at the head of [cs]; [depth] counts the values it is nested
    in, itself included. *)
Fixpoint parse_value (fuel depth : nat) (cs : list ascii) : parsed json :=
  match fuel with
  | O => invalid
  | S fuel' =>
      if (recursion_limit <=? depth)%nat then inl RecursionError
      else
        match skip_ws cs with
        | "n" :: "u" :: "l" :: "l" :: rest => inr (JNull, rest)
        | "t" :: "r" :: "u" :: "e" :: rest => inr (JBool true, rest)
        | "f" :: "a" :: "l" :: "s" :: "e" :: rest => inr (JBool false, rest)
        | "034" :: rest =>
            match parse_string_body rest with
            | Some (s, rest') => inr (JStr s, rest')
            | None => invalid
            end
        | "[" :: rest =>
            match skip_ws rest with
            | "]" :: rest' => inr (JArr [], rest')
            | _ =>
                match parse_items fuel' (S depth) rest with
                | inr (vs, rest') => inr (JArr vs, rest')
                | inl e => inl e
                end
            end
        | "{" :: rest =>
            match skip_ws rest with
            | "}" :: rest' => inr (JObj [], rest')
            | _ =>
                match parse_members fuel' (S depth) rest with
                | inr (kvs, rest') => inr (JObj (dict_of_pairs kvs), rest')
                | inl e => inl e
                end
            end
        | other => parse_number other
        end
  end
with parse_items (fuel depth : nat) (cs : list ascii) : parsed (list json) :=
  match fuel with
  | O => invalid
  | S fuel' =>
      match parse_value fuel' depth cs with
      | inr (v, rest) =>
          match skip_ws rest with
          | "," :: rest' =>
              match parse_items fuel' depth rest' with
              | inr (vs, rest'') => inr (v :: vs, rest'')
              | inl e => inl e
              end
          | "]" :: rest' => inr ([v], rest')
          | _ => invalid
          end
      | inl e => inl e
      end
  end
with parse_members (fuel depth : nat) (cs : list ascii)
  : parsed (list (string * json)) :=
  match fuel with
  | O => invalid
  | S fuel' =>
      match skip_ws cs with
      | "034" :: rest =>
          match parse_string_body rest with
          | Some (k, rest1) =>
              match skip_ws rest1 with
              | ":" :: rest2 =>
                  match parse_value fuel' depth rest2 with
                  | inr (v, rest3) =>
                      match skip_ws rest3 with
                      | "," :: rest4 =>
                          match parse_members fuel' depth rest4 with
                          | inr (kvs, rest5) => inr ((k, v) :: kvs, rest5)
                          | inl e => inl e
                          end
                      | "}" :: rest4 => inr ([(k, v)], rest4)
                      | _ => invalid
                      end
                  | inl e => inl e
                  end
              | _ => invalid
              end
          | None => invalid
          end
      | _ => invalid
      end
  end.

Definition loads (s : string) : result json :=
  let cs := list_ascii_of_string s in
  match parse_value (2 * List.length cs + 2) 1 cs with
  | inr (v, rest) =>
      match skip_ws rest with
      | [] => inr v
      | _ :: _ => inl JSONDecodeError
      end
  | inl e => inl e
  end.

End Decoder.

Module Encoder.

Definition hex_digit (n : Z) : ascii :=
  ascii_of_nat (Z.to_nat (if n <? 10 then 48 + n else 87 + n)).

Definition escape_char (c : ascii) : string :=
  let n := Decoder.code c in
  if n =? 34 then String Decoder.backslash (String Decoder.dq EmptyString)
  else if n =? 92 then String Decoder.backslash (String Decoder.backslash EmptyString)
  else if n =? 10 then String Decoder.backslash "n"
  else if n =? 13 then String Decoder.backslash "r"
  else if n =? 9 then String Decoder.backslash "t"
  else if n =? 8 then String Decoder.backslash "b"
  else if n =? 12 then String Decoder.backslash "f"
  else if (n <? 32) || (n =? 127) then
    String Decoder.backslash
      ("u00" ++ String (hex_digit (n / 16)) (String (hex_digit (n mod 16)) EmptyString))
  else String c EmptyString.

Fixpoint escape (s : string) : string :=
  match s with
  | EmptyString => EmptyString
  | String c s' => escape_char c ++ escape s'
  end.

Definition quote (s : string) : string :=
  String Decoder.dq (escape s ++ String Decoder.dq EmptyString).

Definition dumps_int (z : Z) : string :=
  NilEmpty.string_of_int (Z.to_int z).

(** The first [k] decimals of [num / den], for [0 <= num < den]. *)
Fixpoint decimals (k : nat) (num den : Z) : string :=
  match k with
  | O => EmptyString
  | S k' =>
      String (hex_digit ((10 * num) / den)) (decimals k' ((10 * num) mod den) den)
  end.

(** A binary float written in full: every finite float has a finite
    decimal expansion. *)
Definition dumps_float (f : float) : string :=
  match Prim2SF f with
  | S754_nan => "NaN"
  | S754_infinity false => "Infinity"
  | S754_infinity true => "-Infinity"
  | S754_zero false => "0.0"
  | S754_zero true => "-0.0"
  | S754_finite s m e =>
      (if s then "-" else "") ++
      (if 0 <=? e then dumps_int (Z.pos m * 2 ^ e) ++ ".0"
       else
         let den := 2 ^ (- e) in
         let frac := rstrip (decimals (Z.to_nat (- e)) (Z.pos m mod den) den) "0"%char in
         dumps_int (Z.pos m / den) ++ "." ++
         (match frac with EmptyString => "0" | _ => frac end))
  end.

Fixpoint dumps (v : json) : string :=
  match v with
  | JNull => "null"
  | JBool true => "true"
  | JBool false => "false"
  | JInt z => dumps_int z
  | JFloat f => dumps_float f
  | JStr s => quote s
  | JArr items => "[" ++ String.concat ", " (map dumps items) ++ "]"
  | JObj fields =>
      "{" ++ String.concat ", "
               (map (fun kv => quote (fst kv) ++ ": " ++ dumps (snd kv)) fields) ++ "}"
  end.

Definition to_str (v : json) : string :=
  match v with
  | JNull => "None"
  | JBool true => "True"
  | JBool false => "False"
  | _ => dumps v
  end.

End Encoder.

(** The platform with the test double's codec and the server [server]. *)
Definition test_platform (server : request -> response) : Platform :=
  {| json_loads := Decoder.loads;
     json_dumps := Encoder.dumps;
     py_str := Encoder.to_str;
     remote := server |}.

(** [q s] is [s] between double quotes. *)
Definition q (s : string) : string :=
  String Decoder.dq (s ++ String Decoder.dq EmptyString).

(** A completion reply, status 200, whose first choice carries [content]. *)
Definition reply_with_content (content : string) : response :=
  mkResponse 200
    (Encoder.dumps
       (JObj [("choices",
               JArr [JObj [("message", JObj [("content", JStr content)])]])])).

(** A server that gives the same answer to every request. *)
Definition canned_server (resp : response) : request -> response :=
  fun _ => resp.

Definition login_flow_content : string :=
  "[{" ++ q "title" ++ ":" ++ q "Login flow" ++ "}]".

(** A design service that answers 300 (Multiple Choices) with a JSON body. *)
Definition multiple_choices : response := mkResponse 300 "{}".

Definition sample_client : FigmaClient :=
  FigmaClient_init "figd-test" default_base_url.

Definition sample_file_request : request :=
  mkRequest GET "https://api.figma.com/v1/files/abc123"
    [("X-Figma-Token", "figd-test")] None.

(** An environment in which only the design token is set. *)
Definition token_only_environ (k : string) : option string :=
  if String.eqb k "FIGMA_TOKEN" then Some "figd-test" else None.


(** [k] copies of the character [c]. *)
Fixpoint copies (k : nat) (c : ascii) : string :=
  match k with
  | O => EmptyString
  | S k' => String c (copies k' c)
  end.

(** The document whose root has the pages [pages]. *)
Definition document_of_pages (pages : list json) : json :=
  JObj [("document", JObj [("children", JArr pages)])].

(** A record of the generator's output: the two keys, in this order. *)
Definition is_feature_record (v : json) : bool :=
  match v with
  | JObj [(k1, _); (k2, _)] => String.eqb k1 "title" && String.eqb k2 "description"
  | _ => false
  end.

(** The line [main] prints for a record. *)
Definition feature_line {platform : Platform} (feature : json) : string :=
  match feature with
  | JObj [(_, title); (_, description)] =>
      "- " ++ format_value title ++ ": " ++ format_value description
  | _ => ""
  end.

(** A server that answers a GET with [file_resp] and a POST with
    [completion_resp]. *)
Definition routing_server (file_resp completion_resp : response) : request -> response :=
  fun rq =>
    match req_method rq with
    | GET => file_resp
    | POST => completion_resp
    end.

(** An environment in which the three variables are set. *)
Definition full_environ (k : string) : option string :=
  if String.eqb k "FIGMA_TOKEN" then Some "figd-test"
  else if String.eqb k "FIGMA_FILE_KEY" then Some "abc123"
  else if String.eqb k "OPENAI_API_KEY" then Some "sk-test"
  else None.

(** An environment in which the file key is set to the empty string. *)
Definition empty_key_environ (k : string) : option string :=
  if String.eqb k "FIGMA_FILE_KEY" then Some "" else full_environ k.

(** A file response, status 200, whose body encodes [file_data]. *)
Definition file_response (file_data : json) : response :=
  mkResponse 200 (Encoder.dumps file_data).

(** A document with one frame whose name is a number. *)
Definition numbered_document : json :=
  document_of_pages
    [JObj [("children", JArr [JObj [("type", JStr "FRAME"); ("name", JInt 7)]])]].

(** A content that opens a thousand arrays and closes none, and one that
    is an integer of five thousand digits. *)
Definition deep_content : string := copies 1000 "["%char.

Definition long_integer_content : string := copies 5000 "1"%char.

(** The body of a reply whose first choice carries [content]. *)
Definition reply_data (content : string) : json :=
  JObj [("choices", JArr [JObj [("message", JObj [("content", JStr content)])]])].

(** * Properties *)

(** ** Loops that append *)

Section Loops.

Context {A B : Type}.
Variable body : A -> list B -> result (list B).
Variable contribution : A -> list B.

(** A loop whose body appends [contribution x] whenever it returns has
    appended the contributions of all elements, in order, when it returns. *)
Lemma for_each_appends (xs : list A) :
  (forall x s r, body x s = Ok r -> r = (s ++ contribution x)%list) ->
  forall s r, for_each xs body s = Ok r -> r = (s ++ flat_map contribution xs)%list.
Proof.
  intros Hbody. induction xs as [| x xs IH]; intros s r Hrun; simpl in *.
  - inversion Hrun. now rewrite app_nil_r.
  - destruct (body x s) as [e | s'] eqn:Hx; [discriminate |].
    apply Hbody in Hx. subst s'.
    apply IH in Hrun. now rewrite Hrun, app_assoc.
Qed.

(** The loop returns when its body returns on every element. *)
Lemma for_each_returns (good : A -> bool) (xs : list A) :
  (forall x, good x = true -> forall s, body x s = Ok (s ++ contribution x)%list) ->
  forallb good xs = true ->
  forall s, for_each xs body s = Ok (s ++ flat_map contribution xs)%list.
Proof.
  intros Hbody. induction xs as [| x xs IH]; intros Hall s; simpl in *.
  - now rewrite app_nil_r.
  - apply andb_true_iff in Hall as [Hx Hxs].
    rewrite (Hbody x Hx s). rewrite (IH Hxs). now rewrite app_assoc.
Qed.

(** A loop that returned ran its body to the end on every element. *)
Lemma for_each_all_good (good : A -> bool) (xs : list A) :
  (forall x s r, body x s = Ok r -> good x = true) ->
  forall s r, for_each xs body s = Ok r -> forallb good xs = true.
Proof.
  intros Hbody. induction xs as [| x xs IH]; intros s r Hrun; simpl in *.
  - reflexivity.
  - destruct (body x s) as [e | s'] eqn:Hx; [discriminate |].
    rewrite (Hbody _ _ _ Hx). simpl. eauto.
Qed.

End Loops.

(** ** Frame extraction *)

Module Extraction.

Import Spec.

Lemma node_frames_all (nodes : list json) :
  flat_map node_frames nodes = map node_name (filter is_named_frame nodes).
Proof.
  induction nodes as [| n nodes IH]; simpl; [reflexivity |].
  unfold node_frames at 1. destruct (is_named_frame n); simpl; now rewrite IH.
Qed.

Lemma page_frames_all (pages : list json) :
  flat_map page_frames pages
  = map node_name (filter is_named_frame (flat_map children_of pages)).
Proof.
  induction pages as [| p pages IH]; simpl; [reflexivity |].
  now rewrite filter_app, map_app, IH.
Qed.

Lemma visit_node_dict (d : dict) (frames : list json) :
  visit_node (JObj d) frames = Ok (frames ++ node_frames (JObj d))%list.
Proof.
  unfold visit_node, node_frames, is_named_frame, node_name. simpl.
  destruct (dict_get d "type") as [ty |]; simpl.
  - destruct (eq_str ty "FRAME"); simpl.
    + destruct (dict_get d "name") as [name |]; simpl.
      * destruct (truthy name); now rewrite ?app_nil_r.
      * now rewrite app_nil_r.
    + destruct (dict_get d "name"); now rewrite app_nil_r.
  - destruct (dict_get d "name"); now rewrite app_nil_r.
Qed.

Lemma visit_node_returns (node : json) (frames r : list json) :
  visit_node node frames = Ok r -> isinstance_dict node = true.
Proof. destruct node; simpl; intros H; try discriminate H; reflexivity. Qed.

Lemma nodes_loop (nodes frames : list json) :
  forallb isinstance_dict nodes = true ->
  for_each nodes visit_node frames
  = Ok (frames ++ map node_name (filter is_named_frame nodes))%list.
Proof.
  intros Hall. rewrite <- node_frames_all.
  apply for_each_returns with (good := isinstance_dict); [| exact Hall].
  intros x Hx acc. destruct x; try discriminate Hx. apply visit_node_dict.
Qed.

Lemma nodes_loop_returned (nodes frames r : list json) :
  for_each nodes visit_node frames = Ok r -> forallb isinstance_dict nodes = true.
Proof.
  apply for_each_all_good. intros x s r'. apply visit_node_returns.
Qed.

(** A loop over strings (the keys of a dict, the characters of a str)
    returns only when there is none. *)
Lemma nodes_loop_strings {X : Type} (f : X -> string) (xs : list X) (frames r : list json) :
  for_each (map (fun x => JStr (f x)) xs) visit_node frames = Ok r -> xs = [].
Proof.
  intros H. apply nodes_loop_returned in H.
  destruct xs; [reflexivity | discriminate H].
Qed.

Lemma visit_page_shaped (page : json) (frames : list json) :
  shaped_page page = true ->
  visit_page page frames = Ok (frames ++ page_frames page)%list.
Proof.
  destruct page as [| | | | | | d]; try discriminate.
  unfold shaped_page, visit_page, page_frames, children_of. simpl.
  destruct (dict_get d "children") as [[| | | | | items |] |]; simpl;
    try discriminate; intros Hall.
  - now apply nodes_loop.
  - now rewrite app_nil_r.
Qed.

Lemma visit_page_returned (page : json) (frames r : list json) :
  visit_page page frames = Ok r -> r = (frames ++ page_frames page)%list.
Proof.
  destruct page as [| | | | | | d]; try discriminate.
  unfold visit_page, page_frames, children_of. simpl.
  destruct (dict_get d "children") as [[| | | | s | items | fields] |]; simpl;
    try discriminate; intros Hrun.
  - apply nodes_loop_strings with (f := fun c => String c EmptyString) in Hrun as Hnil.
    rewrite Hnil in Hrun. simpl in Hrun. inversion Hrun. now rewrite app_nil_r.
  - pose proof (nodes_loop_returned _ _ _ Hrun) as Hall.
    rewrite (nodes_loop _ _ Hall) in Hrun. now inversion Hrun.
  - apply nodes_loop_strings with (f := fst) in Hrun as Hnil.
    subst fields. simpl in Hrun. inversion Hrun. now rewrite app_nil_r.
  - inversion Hrun. now rewrite app_nil_r.
Qed.

Lemma visit_page_needs_dict (page : json) (frames r : list json) :
  visit_page page frames = Ok r -> isinstance_dict page = true.
Proof. destruct page; simpl; intros H; try discriminate H; reflexivity. Qed.

Lemma pages_loop (pages frames : list json) :
  forallb shaped_page pages = true ->
  for_each pages visit_page frames
  = Ok (frames ++ map node_name (filter is_named_frame (flat_map children_of pages)))%list.
Proof.
  intros Hall. rewrite <- page_frames_all.
  apply for_each_returns with (good := shaped_page); [| exact Hall].
  intros x Hx s. now apply visit_page_shaped.
Qed.

Lemma pages_loop_returned (pages frames r : list json) :
  for_each pages visit_page frames = Ok r ->
  r = (frames ++ map node_name (filter is_named_frame (flat_map children_of pages)))%list.
Proof.
  intros Hrun. rewrite <- page_frames_all.
  apply for_each_appends with (body := visit_page); [| exact Hrun].
  intros x s r'. apply visit_page_returned.
Qed.

Lemma pages_loop_strings {X : Type} (f : X -> string) (xs : list X) (frames r : list json) :
  for_each (map (fun x => JStr (f x)) xs) visit_page frames = Ok r -> xs = [].
Proof.
  intros H.
  apply for_each_all_good with (good := isinstance_dict) in H.
  - destruct xs; [reflexivity | discriminate H].
  - intros x s r'. apply visit_page_needs_dict.
Qed.

(** On a document of the expected shape the function returns the names
    the specification describes. *)
Lemma extract_shaped (file_data : json) :
  shaped_file file_data = true ->
  extract_frame_names file_data = Ok (frame_names file_data).
Proof.
  destruct file_data as [| | | | | | d]; try discriminate.
  unfold shaped_file, extract_frame_names, frame_names, depth_two_nodes, pages_of,
    root_of. simpl.
  destruct (dict_get d "document") as [root |]; simpl; [| intros _; reflexivity].
  destruct root as [| | | | | | r]; try discriminate.
  unfold shaped_root, children_of. simpl.
  destruct (dict_get r "children") as [[| | | | | pages |] |]; simpl;
    try discriminate; intros Hall.
  - now rewrite (pages_loop pages [] Hall).
  - reflexivity.
Qed.

(** Whenever the function returns, on any value at all, it returns those
    names. *)
Lemma extract_returned (file_data : json) (names : list json) :
  extract_frame_names file_data = Ok names -> names = frame_names file_data.
Proof.
  destruct file_data as [| | | | | | d]; try discriminate.
  unfold extract_frame_names, frame_names, depth_two_nodes, pages_of, root_of. simpl.
  destruct (dict_get d "document") as [root |]; simpl;
    [| intros H; now inversion H].
  destruct root as [| | | | | | r]; try discriminate.
  unfold children_of. simpl.
  destruct (dict_get r "children") as [[| | | | s | pages | fields] |]; simpl;
    try discriminate; intros Hrun.
  - apply pages_loop_strings with (f := fun c => String c EmptyString) in Hrun as Hnil.
    rewrite Hnil in Hrun. simpl in Hrun. now inversion Hrun.
  - now apply pages_loop_returned in Hrun.
  - apply pages_loop_strings with (f := fst) in Hrun as Hnil.
    subst fields. simpl in Hrun. now inversion Hrun.
  - now inversion Hrun.
Qed.

End Extraction.



(** C6. For every document with zero pages, or whose pages hold no
    depth-two node of the container type with a non-empty name,
    [extract_frame_names] returns the empty sequence. *)
Theorem extract_frame_names_nothing_found (file_data : json)
  (Hshape : shaped_file file_data = true)
  (Hnone : Spec.pages_of file_data = []
           \/ filter Spec.is_named_frame (Spec.depth_two_nodes file_data) = []) :
  extract_frame_names file_data = Ok [].
Proof.
  rewrite (Extraction.extract_shaped _ Hshape). unfold Spec.frame_names.
  destruct Hnone as [Hpages | Hnodes].
  - unfold Spec.depth_two_nodes. now rewrite Hpages.
  - now rewrite Hnodes.
Qed.

Lemma extract_frame_names_nothing_found_witness :
  extract_frame_names no_pages_document = Ok []
  /\ extract_frame_names groups_only_document = Ok [].
Proof.
  split.
  - apply (extract_frame_names_nothing_found no_pages_document);
      [reflexivity | left; reflexivity].
  - apply (extract_frame_names_nothing_found groups_only_document);
      [reflexivity | right; reflexivity].
Defined.

(** C10. On every document of the service's shape in which keys are
    missing -- no ["document"], a document or a page without ["children"],
    a depth-two node without ["type"] or ["name"] -- [extract_frame_names]
    returns normally: a missing ["document"] or ["children"] counts as
    empty, and a node whose type or name is missing, or whose name is
    empty, is skipped. *)
Theorem extract_frame_names_missing_keys (file_data : json)
  (Hshape : shaped_file file_data = true) :
  extract_frame_names file_data = Ok (Spec.frame_names file_data)
  /\ (forall d, file_data = JObj d -> dict_get d "document" = None ->
        extract_frame_names file_data = Ok [])
  /\ (forall d r, file_data = JObj d -> dict_get d "document" = Some (JObj r) ->
        dict_get r "children" = None ->
        extract_frame_names file_data = Ok [])
  /\ (forall p frames, In (JObj p) (Spec.pages_of file_data) ->
        dict_get p "children" = None ->
        visit_page (JObj p) frames = Ok frames)
  /\ (forall n frames, In (JObj n) (Spec.depth_two_nodes file_data) ->
        dict_get n "type" = None \/ dict_get n "name" = None
        \/ dict_get n "name" = Some (JStr "") ->
        visit_node (JObj n) frames = Ok frames).
Proof.
  split; [now apply Extraction.extract_shaped |].
  split; [| split; [| split]].
  - intros d -> Hdoc. unfold extract_frame_names. simpl. now rewrite Hdoc.
  - intros d r -> Hdoc Hch. unfold extract_frame_names. simpl.
    rewrite Hdoc. simpl. now rewrite Hch.
  - intros p frames _ Hch. unfold visit_page. simpl. now rewrite Hch.
  - intros n frames _ Hmiss. unfold visit_node. simpl.
    destruct Hmiss as [Hty | [Hname | Hname]].
    + now rewrite Hty.
    + destruct (dict_get n "type") as [ty |]; simpl; [| reflexivity].
      destruct (eq_str ty "FRAME"); simpl; [| reflexivity]. now rewrite Hname.
    + destruct (dict_get n "type") as [ty |]; simpl; [| reflexivity].
      destruct (eq_str ty "FRAME"); simpl; [| reflexivity]. now rewrite Hname.
Qed.

Lemma extract_frame_names_missing_keys_witness :
  extract_frame_names sparse_document = Ok [JStr "Home"]
  /\ extract_frame_names (JObj []) = Ok []
  /\ extract_frame_names (JObj [("document", JObj [])]) = Ok [].
Proof.
  split; [| split].
  - apply (proj1 (extract_frame_names_missing_keys sparse_document eq_refl)).
  - apply (proj1 (extract_frame_names_missing_keys (JObj []) eq_refl)).
  - apply (proj1 (extract_frame_names_missing_keys (JObj [("document", JObj [])]) eq_refl)).
Defined.

(** ** Running effectful code *)

Section RunLaws.

Context {platform : Platform}.

Lemma run_ret {A : Type} (a : A) (w : world) :
  run (ret a) w = (Ok a, w).
Proof. reflexivity. Qed.

Lemma run_lift_result {A : Type} (r : result A) (w : world) :
  run (lift_result r) w = (r, w).
Proof. reflexivity. Qed.

Lemma run_bind {A B : Type} (c : IO A) (k : A -> IO B) (w : world) :
  run (bind c k) w
  = match run c w with
    | (inl e, w') => (Raise e, w')
    | (inr a, w') => run (k a) w'
    end.
Proof.
  unfold run. simpl. destruct (runState (unEitherT c) w) as [[e | a] w']; reflexivity.
Qed.

Lemma run_send (rq : request) (w : world) :
  run (send rq) w = (Ok (remote rq), mkWorld (sent w ++ [rq]) (stdout w)).
Proof. reflexivity. Qed.

Lemma run_print (line : string) (w : world) :
  run (py_print line) w = (Ok tt, mkWorld (sent w) (stdout w ++ [line])).
Proof. reflexivity. Qed.

(** [Response.ok] is false exactly on the statuses 400 to 599. *)
Lemma ok_status (resp : response) :
  ok resp = negb ((400 <=? status_code resp) && (status_code resp <? 600)).
Proof.
  unfold ok, raise_for_status.
  destruct ((400 <=? status_code resp) && (status_code resp <? 600)); reflexivity.
Qed.

Lemma ok_false_iff (resp : response) :
  ok resp = false <-> 400 <= status_code resp < 600.
Proof.
  rewrite ok_status, negb_false_iff, andb_true_iff, Z.leb_le, Z.ltb_lt. tauto.
Qed.

Lemma run_status_guard (resp : response) (w : world) :
  run (status_guard resp) w
  = (if ok resp then Ok tt else Raise (HTTPError resp), w).
Proof.
  unfold status_guard. rewrite ok_status. unfold raise_for_status.
  destruct ((400 <=? status_code resp) && (status_code resp <? 600)); reflexivity.
Qed.

(** What a call with at least one name does: one request, then the guard,
    then the pure decoding of the reply. *)
Lemma run_generate (names : list string) (key model : string)
    (temperature : float) (max_tokens : Z) (w : world) :
  names <> [] ->
  let rq := completion_request names key model temperature max_tokens in
  run (generate_features_from_figma names key model temperature max_tokens) w
  = (if ok (remote rq) then
       data <- response_json (remote rq) ;;
       content <- first_choice_content data ;;
       parse_features content
     else Raise (HTTPError (remote rq)),
     mkWorld (sent w ++ [rq]) (stdout w)).
Proof.
  intros Hnames rq. destruct names as [| n ns]; [contradiction |].
  unfold generate_features_from_figma, requests_post.
  change (mkRequest POST _ _ _) with rq.
  rewrite run_bind, run_send.
  rewrite run_bind, run_status_guard.
  destruct (ok (remote rq)); [| reflexivity].
  rewrite run_bind, run_lift_result.
  destruct (response_json (remote rq)) as [e | data]; [reflexivity |].
  rewrite run_bind, run_lift_result. cbn [bind Monad_either].
  destruct (first_choice_content data) as [e | content]; [reflexivity |].
  now rewrite run_lift_result.
Qed.

Lemma run_get_file (client : FigmaClient) (file_key : string) (w : world) :
  let rq := mkRequest GET (base_url client ++ "/files/" ++ file_key)
              [("X-Figma-Token", token client)] None in
  run (get_file client file_key) w
  = (if ok (remote rq) then response_json (remote rq)
     else Raise (HTTPError (remote rq)),
     mkWorld (sent w ++ [rq]) (stdout w)).
Proof.
  intros rq. unfold get_file, requests_get, _headers. fold rq.
  rewrite run_bind, run_send.
  rewrite run_bind, run_status_guard.
  destruct (ok (remote rq)); [| reflexivity].
  now rewrite run_lift_result.
Qed.

(** The comprehension keeps the objects, in order, as feature records. *)
Lemma keep_feature_loop (items acc : list json) :
  for_each items keep_feature acc = Ok (acc ++ Spec.features_of items)%list.
Proof.
  unfold Spec.features_of.
  replace (map Spec.feature_record (filter isinstance_dict items))
    with (flat_map (fun item => if isinstance_dict item
                                then [Spec.feature_record item] else []) items).
  - apply for_each_returns with (good := fun _ => true).
    + intros x _ s. unfold keep_feature, py_get.
      destruct x; simpl; try now rewrite app_nil_r.
      destruct (dict_get fields "title"), (dict_get fields "description"); reflexivity.
    + now apply forallb_forall.
  - induction items as [| x items IH]; simpl; [reflexivity |].
    destruct (isinstance_dict x); simpl; now rewrite IH.
Qed.

End RunLaws.

(** ** Feature generation *)

Section Generation.

Context {platform : Platform}.

Variables (names : list string) (key model : string).
Variables (temperature : float) (max_tokens : Z).

(** The reply of the completion endpoint to the request of this call. *)
Let reply : response :=
  remote (completion_request names key model temperature max_tokens).

(** X18. For every completion reply on whose message content
    [json.loads] raises a [JSONDecodeError], [generate_features_from_figma]
    does not raise: it returns exactly one record, whose title is
    ["Model response"] and whose description is the raw reply text. *)
Theorem generate_features_invalid_json (w : world) (data : json) (content : string)
  (Hnames : names <> [])
  (Hok : ok reply = true)
  (Hdata : response_json reply = Ok data)
  (Hcontent : first_choice_content data = Ok (JStr content))
  (Hinvalid : json_loads content = Raise JSONDecodeError) :
  fst (run (generate_features_from_figma names key model temperature max_tokens) w)
  = Ok [JObj [("title", JStr "Model response"); ("description", JStr content)]].
Proof.
  rewrite (run_generate _ _ _ _ _ _ Hnames). fold reply. simpl fst.
  rewrite Hok, Hdata. cbn [bind Monad_either]. rewrite Hcontent. cbn [bind Monad_either].
  unfold parse_features, py_json_loads. rewrite Hinvalid. reflexivity.
Qed.

(** C3. For every completion reply whose message content decodes to a JSON
    array, [generate_features_from_figma] keeps exactly the elements that
    are objects, in the array's order, and drops the others; every record it
    returns has both keys, [title] being ["Untitled Feature"] and
    [description] the empty string where the source object omits them.  The
    array with the one object [{"title": "Login flow"}] yields
    [{"title": "Login flow", "description": ""}]. *)
Theorem generate_features_array (w : world) (data : json) (content : string)
    (items : list json)
  (Hnames : names <> [])
  (Hok : ok reply = true)
  (Hdata : response_json reply = Ok data)
  (Hcontent : first_choice_content data = Ok (JStr content))
  (Hitems : json_loads content = Ok (JArr items)) :
  let returned :=
    fst (run (generate_features_from_figma names key model temperature max_tokens) w) in
  returned = Ok (map Spec.feature_record (filter isinstance_dict items))
  /\ (forall item, In item (filter isinstance_dict items) ->
        exists d title description,
          item = JObj d
          /\ Spec.feature_record item
             = JObj [("title", title); ("description", description)]
          /\ (dict_get d "title" = None -> title = JStr "Untitled Feature")
          /\ (dict_get d "description" = None -> description = JStr "")
          /\ (forall t, dict_get d "title" = Some t -> title = t)
          /\ (forall t, dict_get d "description" = Some t -> description = t))
  /\ (items = [JObj [("title", JStr "Login flow")]] ->
        returned = Ok [JObj [("title", JStr "Login flow"); ("description", JStr "")]]).
Proof.
  intros returned.
  assert (Hret : returned = Ok (Spec.features_of items)).
  { unfold returned. rewrite (run_generate _ _ _ _ _ _ Hnames). fold reply. simpl fst.
    rewrite Hok, Hdata. cbn [bind Monad_either]. rewrite Hcontent.
    cbn [bind Monad_either]. unfold parse_features, py_json_loads. rewrite Hitems.
    cbn [bind Monad_either py_iter]. now rewrite keep_feature_loop. }
  split; [exact Hret |]. split.
  - intros item Hin. apply filter_In in Hin as [_ Hdict].
    destruct item as [| | | | | | d]; try discriminate Hdict.
    exists d. simpl.
    destruct (dict_get d "title") as [t |], (dict_get d "description") as [t' |];
      eexists; eexists; (split; [reflexivity |]); (split; [reflexivity |]);
      repeat split; intros; congruence.
  - intros ->. exact Hret.
Qed.

(** C9. Some completion replies make [generate_features_from_figma] raise:
    when the message content is valid JSON that decodes to a number, a
    boolean or [null] (the content [42] for one), the handler for decode
    errors does not apply and iterating the value raises a [TypeError] that
    reaches the caller. *)
Theorem generate_features_scalar_raises (w : world) (data : json) (content : string)
    (v : json)
  (Hnames : names <> [])
  (Hok : ok reply = true)
  (Hdata : response_json reply = Ok data)
  (Hcontent : first_choice_content data = Ok (JStr content))
  (Hvalid : json_loads content = Ok v)
  (Hscalar : is_scalar v = true) :
  fst (run (generate_features_from_figma names key model temperature max_tokens) w)
  = Raise TypeError.
Proof.
  rewrite (run_generate _ _ _ _ _ _ Hnames). fold reply. simpl fst.
  rewrite Hok, Hdata. cbn [bind Monad_either]. rewrite Hcontent. cbn [bind Monad_either].
  unfold parse_features, py_json_loads. rewrite Hvalid.
  destruct v; try discriminate Hscalar; reflexivity.
Qed.

(** C5. For the empty sequence of frame names,
    [generate_features_from_figma] returns the empty sequence and sends
    nothing: the world, with its record of requests, is unchanged. *)
Theorem generate_features_no_names (w : world) :
  run (generate_features_from_figma [] key model temperature max_tokens) w = (Ok [], w)
  /\ sent (snd (run (generate_features_from_figma [] key model temperature max_tokens) w))
     = sent w.
Proof. split; reflexivity. Qed.

End Generation.

Lemma generate_features_invalid_json_witness :
  fst (run (@generate_features_from_figma
              (test_platform (canned_server (reply_with_content "not json")))
              ["Login"] "sk-test" default_model default_temperature default_max_tokens)
         (mkWorld [] []))
  = Ok [JObj [("title", JStr "Model response"); ("description", JStr "not json")]].
Proof.
  apply (@generate_features_invalid_json
           (test_platform (canned_server (reply_with_content "not json")))
           ["Login"] "sk-test" default_model default_temperature default_max_tokens
           (mkWorld [] [])
           (JObj [("choices",
                   JArr [JObj [("message", JObj [("content", JStr "not json")])]])])
           "not json").
  - discriminate.
  - reflexivity.
  - vm_compute. reflexivity.
  - reflexivity.
  - vm_compute. reflexivity.
Defined.

Lemma generate_features_array_witness :
  fst (run (@generate_features_from_figma
              (test_platform (canned_server (reply_with_content login_flow_content)))
              ["Login"] "sk-test" default_model default_temperature default_max_tokens)
         (mkWorld [] []))
  = Ok [JObj [("title", JStr "Login flow"); ("description", JStr "")]].
Proof.
  apply (@generate_features_array
           (test_platform (canned_server (reply_with_content login_flow_content)))
           ["Login"] "sk-test" default_model default_temperature default_max_tokens
           (mkWorld [] [])
           (JObj [("choices",
                   JArr [JObj [("message",
                                JObj [("content", JStr login_flow_content)])]])])
           login_flow_content
           [JObj [("title", JStr "Login flow")]]).
  - discriminate.
  - reflexivity.
  - vm_compute. reflexivity.
  - reflexivity.
  - vm_compute. reflexivity.
  - reflexivity.
Defined.

Lemma generate_features_scalar_raises_witness :
  fst (run (@generate_features_from_figma
              (test_platform (canned_server (reply_with_content "42")))
              ["Login"] "sk-test" default_model default_temperature default_max_tokens)
         (mkWorld [] []))
  = Raise TypeError.
Proof.
  apply (@generate_features_scalar_raises
           (test_platform (canned_server (reply_with_content "42")))
           ["Login"] "sk-test" default_model default_temperature default_max_tokens
           (mkWorld [] [])
           (JObj [("choices",
                   JArr [JObj [("message", JObj [("content", JStr "42")])]])])
           "42" (JInt 42)).
  - discriminate.
  - reflexivity.
  - vm_compute. reflexivity.
  - reflexivity.
  - vm_compute. reflexivity.
  - reflexivity.
Defined.

(** ** Strings *)







Section Requests.

Context {platform : Platform}.

Variables (names : list string) (key model : string).
Variables (temperature : float) (max_tokens : Z).


(** X19. A response whose status is a client or a server error (400 to
    599) makes [get_file], and the completion call of
    [generate_features_from_figma], raise an [HTTPError] that carries the
    response with its status; one request was sent, nothing is retried, and
    [main] lets the exception of [get_file] through.  On a 2xx status with a
    body that decodes, [get_file] returns the decoded body as it is. *)
Theorem http_error_status_raises (client : FigmaClient) (file_key : string) (w : world) :
  let file_rq := mkRequest GET (base_url client ++ "/files/" ++ file_key)
                   [("X-Figma-Token", token client)] None in
  let completion_rq := completion_request names key model temperature max_tokens in
  (400 <= status_code (remote file_rq) < 600 ->
     run (get_file client file_key) w
     = (Raise (HTTPError (remote file_rq)), mkWorld (sent w ++ [file_rq]) (stdout w)))
  /\ (names <> [] -> 400 <= status_code (remote completion_rq) < 600 ->
        run (generate_features_from_figma names key model temperature max_tokens) w
        = (Raise (HTTPError (remote completion_rq)),
           mkWorld (sent w ++ [completion_rq]) (stdout w)))
  /\ (forall v, 200 <= status_code (remote file_rq) < 300 ->
        json_loads (text (remote file_rq)) = Ok v ->
        run (get_file client file_key) w
        = (Ok v, mkWorld (sent w ++ [file_rq]) (stdout w)))
  /\ (forall environ : string -> option string,
        env_truthy (environ "FIGMA_TOKEN") = true ->
        env_truthy (environ "FIGMA_FILE_KEY") = true ->
        env_truthy (environ "OPENAI_API_KEY") = true ->
        let main_rq :=
          mkRequest GET
            ("https://api.figma.com/v1/files/" ++ env_value (environ "FIGMA_FILE_KEY"))
            [("X-Figma-Token", env_value (environ "FIGMA_TOKEN"))] None in
        400 <= status_code (remote main_rq) < 600 ->
        run (main environ) w
        = (Raise (HTTPError (remote main_rq)), mkWorld (sent w ++ [main_rq]) (stdout w))).
Proof.
  intros file_rq completion_rq.
  split; [| split; [| split]].
  - intros Hstatus. rewrite run_get_file. fold file_rq.
    apply ok_false_iff in Hstatus. now rewrite Hstatus.
  - intros Hnames Hstatus. rewrite (run_generate _ _ _ _ _ _ Hnames). fold completion_rq.
    apply ok_false_iff in Hstatus. now rewrite Hstatus.
  - intros v Hstatus Hbody. rewrite run_get_file. fold file_rq.
    destruct (ok (remote file_rq)) eqn:Hok.
    + unfold response_json. now rewrite Hbody.
    + apply ok_false_iff in Hok. lia.
  - intros environ Htoken Hfile Hkey main_rq Hstatus.
    unfold main. rewrite Htoken, Hfile, Hkey. cbn [andb negb].
    rewrite run_bind, run_get_file.
    change (mkRequest GET _ _ None) with main_rq.
    apply ok_false_iff in Hstatus. now rewrite Hstatus.
Qed.

(** C8. Whenever one of [FIGMA_TOKEN], [FIGMA_FILE_KEY] and
    [OPENAI_API_KEY] is absent from the environment, [main] prints the
    guidance message, which names the three variables that must be set,
    and returns without raising and without sending a request. *)
Theorem main_missing_environment (environ : string -> option string) (w : world)
  (Hmissing : environ "FIGMA_TOKEN" = None
              \/ environ "FIGMA_FILE_KEY" = None
              \/ environ "OPENAI_API_KEY" = None) :
  run (main environ) w
  = (Ok tt,
     mkWorld (sent w)
       (stdout w
        ++ ["FIGMA_TOKEN, FIGMA_FILE_KEY and OPENAI_API_KEY environment variables "
         ++ "must be set to run this example."])).
Proof.
  unfold main.
  assert (Hcond : env_truthy (environ "FIGMA_TOKEN")
                  && env_truthy (environ "FIGMA_FILE_KEY")
                  && env_truthy (environ "OPENAI_API_KEY") = false).
  { destruct Hmissing as [H | [H | H]]; rewrite H; simpl.
    - reflexivity.
    - now rewrite andb_false_r.
    - now rewrite andb_false_r. }
  rewrite Hcond. simpl negb. cbv iota. apply run_print.
Qed.

End Requests.


(** C4. The claim, and the docstring of [get_file] ("raises HTTPError for
    non-200 responses"), ask for an HTTP error on every status that is
    not a success; the code does not give one on status 300: the response
    is not a 2xx response, yet [get_file] raises nothing and returns the
    decoded body after its one request. *)
Lemma get_file_status_300_returns :
  ~ (200 <= status_code multiple_choices < 300)
  /\ run (@get_file (test_platform (canned_server multiple_choices))
            sample_client "abc123") (mkWorld [] [])
     = (Ok (JObj []), mkWorld [sample_file_request] []).
Proof.
  split; [simpl; lia |]. vm_compute. reflexivity.
Qed.

Lemma http_error_status_raises_witness :
  run (@get_file (test_platform (canned_server (mkResponse 404 "Not found")))
         sample_client "abc123") (mkWorld [] [])
  = (Raise (HTTPError (mkResponse 404 "Not found")), mkWorld [sample_file_request] [])
  /\ run (@generate_features_from_figma
            (test_platform (canned_server (mkResponse 500 "Server error")))
            ["Login"] "sk-test" default_model default_temperature default_max_tokens)
       (mkWorld [] [])
     = (Raise (HTTPError (mkResponse 500 "Server error")),
        mkWorld [@completion_request
                   (test_platform (canned_server (mkResponse 500 "Server error")))
                   ["Login"] "sk-test" default_model default_temperature
                   default_max_tokens] []).
Proof.
  split.
  - apply (proj1 (@http_error_status_raises
                    (test_platform (canned_server (mkResponse 404 "Not found")))
                    ["Login"] "sk-test" default_model default_temperature
                    default_max_tokens sample_client "abc123" (mkWorld [] []))).
    simpl. lia.
  - apply (proj1 (proj2 (@http_error_status_raises
                    (test_platform (canned_server (mkResponse 500 "Server error")))
                    ["Login"] "sk-test" default_model default_temperature
                    default_max_tokens sample_client "abc123" (mkWorld [] []))));
      [discriminate | simpl; lia].
Defined.

Lemma main_missing_environment_witness :
  run (@main (test_platform (canned_server multiple_choices)) token_only_environ)
    (mkWorld [] [])
  = (Ok tt,
     mkWorld []
       ["FIGMA_TOKEN, FIGMA_FILE_KEY and OPENAI_API_KEY environment variables "
         ++ "must be set to run this example."]).
Proof.
  apply (@main_missing_environment
           (test_platform (canned_server multiple_choices)) token_only_environ
           (mkWorld [] [])).
  right. left. reflexivity.
Defined.

(** * Further properties of the code *)

(** ** [rstrip] and the client's base URL *)

Lemma append_eq_nil (a b : string) : a ++ b = "" -> a = "" /\ b = "".
Proof. destruct a; simpl; [auto | discriminate]. Qed.

Lemma rstrip_suffix (s : string) (c : ascii) :
  exists k, s = rstrip s c ++ copies k c.
Proof.
  induction s as [| a s IH]; simpl.
  - now exists O.
  - destruct IH as [k Hk]. destruct (rstrip s c) as [| b r] eqn:Hr.
    + simpl in Hk. destruct (Ascii.eqb_spec a c) as [-> | Hne].
      * exists (S k). simpl. now rewrite <- Hk.
      * exists k. simpl. now rewrite <- Hk.
    + exists k. simpl. simpl in Hk. now rewrite <- Hk.
Qed.

Lemma rstrip_no_trailing (s : string) (c : ascii) (t : string) :
  rstrip s c <> t ++ String c EmptyString.
Proof.
  revert t. induction s as [| a s IH]; intros t; simpl.
  - intros H. symmetry in H. apply append_eq_nil in H as [_ H]. discriminate H.
  - destruct (rstrip s c) as [| b r] eqn:Hr.
    + destruct (Ascii.eqb_spec a c) as [-> | Hne].
      * intros H. symmetry in H. apply append_eq_nil in H as [_ H]. discriminate H.
      * destruct t as [| x t]; simpl; intros H; inversion H; subst.
        -- contradiction.
        -- match goal with E : EmptyString = _ |- _ =>
             symmetry in E; apply append_eq_nil in E as [_ E]; discriminate E end.
    + destruct t as [| x t]; simpl; intros H; inversion H; subst.
      eapply IH. eassumption.
Qed.

Lemma rstrip_unchanged (s : string) (c : ascii) :
  (forall t, s <> t ++ String c EmptyString) -> rstrip s c = s.
Proof.
  induction s as [| a s IH]; intros Hend; simpl; [reflexivity |].
  destruct s as [| b s'].
  - simpl. destruct (Ascii.eqb_spec a c) as [-> | Hne]; [| reflexivity].
    exfalso. now apply (Hend EmptyString).
  - rewrite IH; [reflexivity |].
    intros t Ht. apply (Hend (String a t)). simpl. now rewrite Ht.
Qed.

(** X1. [FigmaClient(token, base_url)] keeps the token and removes the
    trailing slashes of the base URL and nothing else: the stored URL does
    not end in a slash, the given URL is the stored one followed by slashes
    only, and a URL without a trailing slash is stored as it is. *)
Theorem FigmaClient_init_strips_slashes (tok base : string) :
  token (FigmaClient_init tok base) = tok
  /\ (exists k, base = base_url (FigmaClient_init tok base) ++ copies k "/"%char)
  /\ (forall t, base_url (FigmaClient_init tok base) <> t ++ "/")
  /\ ((forall t, base <> t ++ "/") -> base_url (FigmaClient_init tok base) = base)
  /\ FigmaClient_init tok (base_url (FigmaClient_init tok base)) = FigmaClient_init tok base.
Proof.
  unfold FigmaClient_init. simpl.
  split; [reflexivity |]. split; [apply rstrip_suffix |].
  split; [apply rstrip_no_trailing |].
  split; [apply rstrip_unchanged |].
  f_equal. apply rstrip_unchanged. apply rstrip_no_trailing.
Qed.

Lemma FigmaClient_init_strips_slashes_witness :
  base_url (FigmaClient_init "t" "https://api.figma.com/v1") = "https://api.figma.com/v1".
Proof.
  apply (proj1 (proj2 (proj2 (proj2
           (FigmaClient_init_strips_slashes "t" "https://api.figma.com/v1"))))).
  intros t H.
  apply (rstrip_no_trailing "https://api.figma.com/v1" "/"%char t). exact H.
Defined.

(** ** More on frame extraction *)

Lemma for_each_raises {A S : Type} (body : A -> S -> result S) (P : exn -> Prop)
    (xs : list A) :
  (forall x s e, body x s = Raise e -> P e) ->
  forall s e, for_each xs body s = Raise e -> P e.
Proof.
  intros Hbody. induction xs as [| x xs IH]; intros s e Hrun; simpl in Hrun.
  - discriminate Hrun.
  - destruct (body x s) as [e' | s'] eqn:Hx.
    + inversion Hrun. subst. eauto.
    + eauto.
Qed.

Lemma py_get_raises (v : json) (k : string) (default : json) (e : exn) :
  py_get v k default = Raise e -> e = AttributeError.
Proof.
  destruct v; simpl; intros H; try (now inversion H).
  destruct (dict_get fields k); discriminate H.
Qed.

Lemma py_iter_raises (v : json) (e : exn) :
  py_iter v = Raise e -> e = TypeError.
Proof. destruct v; simpl; intros H; try discriminate H; now inversion H. Qed.

Lemma visit_node_raises (node : json) (frames : list json) (e : exn) :
  visit_node node frames = Raise e -> e = AttributeError.
Proof.
  destruct node; simpl; intros H; try (now inversion H).
  rewrite Extraction.visit_node_dict in H. discriminate H.
Qed.

Lemma visit_page_raises (page : json) (frames : list json) (e : exn) :
  visit_page page frames = Raise e -> e = AttributeError \/ e = TypeError.
Proof.
  unfold visit_page. cbn [bind Monad_either].
  destruct (py_get page "children" (JArr [])) as [e1 | children] eqn:Hget.
  - intros H. inversion H. subst. left. eapply py_get_raises; eassumption.
  - destruct (py_iter children) as [e2 | nodes] eqn:Hiter.
    + intros H. inversion H. subst. right. eapply py_iter_raises; eassumption.
    + intros H. left.
      apply for_each_raises with (P := fun e => e = AttributeError) in H; [exact H |].
      intros x s e'. apply visit_node_raises.
Qed.

(** X2. When [extract_frame_names] raises, on any value whatsoever, the
    exception is an [AttributeError] (a [.get] on a value that is not a
    mapping) or a [TypeError] (a loop over a value that cannot be
    iterated); it raises nothing else. *)
Theorem extract_frame_names_raises_only (file_data : json) (e : exn)
  (Hraise : extract_frame_names file_data = Raise e) :
  e = AttributeError \/ e = TypeError.
Proof.
  unfold extract_frame_names in Hraise. cbn [bind Monad_either] in Hraise.
  destruct (py_get file_data "document" (JObj [])) as [e1 | document] eqn:Hdoc.
  - inversion Hraise. subst. left. eapply py_get_raises; eassumption.
  - destruct (py_get document "children" (JArr [])) as [e2 | pages] eqn:Hpages.
    + inversion Hraise. subst. left. eapply py_get_raises; eassumption.
    + destruct (py_iter pages) as [e3 | pages_seq] eqn:Hiter.
      * inversion Hraise. subst. right. eapply py_iter_raises; eassumption.
      * apply for_each_raises
          with (P := fun e => e = AttributeError \/ e = TypeError) in Hraise;
          [exact Hraise |].
        intros x s e'. apply visit_page_raises.
Qed.

Lemma extract_frame_names_raises_only_witness :
  extract_frame_names (JObj [("document", JObj [("children", JInt 5)])]) = Raise TypeError
  /\ (TypeError = AttributeError \/ TypeError = TypeError).
Proof.
  split; [reflexivity |].
  apply (extract_frame_names_raises_only
           (JObj [("document", JObj [("children", JInt 5)])]) TypeError).
  reflexivity.
Defined.

(** X3. Every name [extract_frame_names] returns is truthy: the output
    holds no empty string (and no [None]), and it has at most one name per
    depth-two node. *)
Theorem extract_frame_names_no_empty_name (file_data : json) (names : list json)
  (Hrun : extract_frame_names file_data = Ok names) :
  Forall (fun name => truthy name = true) names
  /\ ~ In (JStr "") names
  /\ ~ In JNull names
  /\ (List.length names <= List.length (Spec.depth_two_nodes file_data))%nat.
Proof.
  apply Extraction.extract_returned in Hrun. subst names. unfold Spec.frame_names.
  assert (Htruthy : Forall (fun name => truthy name = true)
            (map Spec.node_name
               (filter Spec.is_named_frame (Spec.depth_two_nodes file_data)))).
  { apply Forall_forall. intros name Hin.
    apply in_map_iff in Hin as (node & <- & Hnode).
    apply filter_In in Hnode as [_ Hframe].
    destruct node as [| | | | | | d]; try discriminate Hframe.
    simpl in *. destruct (dict_get d "type"); [| discriminate Hframe].
    destruct (dict_get d "name"); [| discriminate Hframe].
    now apply andb_true_iff in Hframe as [_ Hframe]. }
  split; [exact Htruthy |].
  rewrite Forall_forall in Htruthy.
  split; [| split].
  - intros Hin. apply Htruthy in Hin. discriminate Hin.
  - intros Hin. apply Htruthy in Hin. discriminate Hin.
  - rewrite length_map. apply filter_length_le.
Qed.

Lemma extract_frame_names_no_empty_name_witness :
  Forall (fun name => truthy name = true) [JStr "Home"].
Proof.
  apply (proj1 (extract_frame_names_no_empty_name sparse_document [JStr "Home"] eq_refl)).
Defined.

(** X4. Extraction goes page by page: on pages of the service's shape, the
    names of a document whose pages are [ps1 ++ ps2] are the names of the
    document with pages [ps1] followed by those of the document with pages
    [ps2]. *)
Theorem extract_frame_names_pages_append (ps1 ps2 : list json)
  (H1 : forallb shaped_page ps1 = true) (H2 : forallb shaped_page ps2 = true) :
  exists names1 names2,
    extract_frame_names (document_of_pages ps1) = Ok names1
    /\ extract_frame_names (document_of_pages ps2) = Ok names2
    /\ extract_frame_names (document_of_pages (ps1 ++ ps2)) = Ok (names1 ++ names2)%list.
Proof.
  assert (Hdoc : forall ps, forallb shaped_page ps = true ->
            extract_frame_names (document_of_pages ps)
            = Ok (flat_map Spec.page_frames ps)).
  { intros ps Hps. rewrite Extraction.page_frames_all.
    now rewrite (Extraction.extract_shaped (document_of_pages ps) Hps). }
  exists (flat_map Spec.page_frames ps1), (flat_map Spec.page_frames ps2).
  split; [now apply Hdoc |]. split; [now apply Hdoc |].
  rewrite Hdoc; [now rewrite flat_map_app |].
  rewrite forallb_app. now rewrite H1, H2.
Qed.

Lemma extract_frame_names_pages_append_witness :
  exists names1 names2,
    extract_frame_names (document_of_pages (Spec.pages_of login_document)) = Ok names1
    /\ extract_frame_names (document_of_pages (Spec.pages_of sparse_document)) = Ok names2
    /\ extract_frame_names
         (document_of_pages (Spec.pages_of login_document ++ Spec.pages_of sparse_document))
       = Ok (names1 ++ names2)%list.
Proof.
  apply (extract_frame_names_pages_append
           (Spec.pages_of login_document) (Spec.pages_of sparse_document));
    reflexivity.
Defined.

(** ** More on the client and the generator *)

Section Replies.

Context {platform : Platform}.

(** X5. Whatever the response, [get_file] sends exactly one request, a GET
    of [{base_url}/files/{file_key}] with the token in the [X-Figma-Token]
    header and no body, and prints nothing. *)
Theorem get_file_one_request (client : FigmaClient) (file_key : string) (w : world) :
  sent (snd (run (get_file client file_key) w))
  = (sent w ++ [mkRequest GET (base_url client ++ "/files/" ++ file_key)
                  [("X-Figma-Token", token client)] None])%list
  /\ stdout (snd (run (get_file client file_key) w)) = stdout w.
Proof. rewrite run_get_file. split; reflexivity. Qed.

(** X6. When the design service answers with a status outside 400-599 and
    a body on which the decoder raises (a body that is not valid JSON, for
    one), [get_file] raises what [Response.json()] raised; nothing catches
    it. *)
Theorem get_file_undecodable_body (client : FigmaClient) (file_key : string) (w : world)
    (e : exn) :
  let resp := remote (mkRequest GET (base_url client ++ "/files/" ++ file_key)
                        [("X-Figma-Token", token client)] None) in
  ~ (400 <= status_code resp < 600) ->
  json_loads (text resp) = Raise e ->
  fst (run (get_file client file_key) w) = Raise e.
Proof.
  intros resp Hstatus Hbody. rewrite run_get_file. fold resp. simpl fst.
  destruct (ok resp) eqn:Hok.
  - unfold response_json. now rewrite Hbody.
  - apply ok_false_iff in Hok. contradiction.
Qed.

Lemma features_of_strings {X : Type} (f : X -> string) (xs : list X) :
  Spec.features_of (map (fun x => JStr (f x)) xs) = [].
Proof.
  unfold Spec.features_of. induction xs as [| x xs IH]; simpl; [reflexivity | exact IH].
Qed.

Lemma features_of_records (items : list json) :
  forallb is_feature_record (Spec.features_of items) = true.
Proof.
  unfold Spec.features_of. induction items as [| x items IH]; simpl; [reflexivity |].
  destruct x; simpl; exact IH.
Qed.

(** What the [try] block does with a decoded value. *)
Lemma parse_features_decoded (s : string) (v : json) :
  json_loads s = Ok v ->
  parse_features (JStr s)
  = match py_iter v with
    | inl e => Raise e
    | inr items => Ok (Spec.features_of items)
    end.
Proof.
  intros Hv. unfold parse_features, py_json_loads. rewrite Hv.
  cbn [bind Monad_either]. destruct (py_iter v) as [e | items] eqn:Hiter.
  - apply py_iter_raises in Hiter. subst e. reflexivity.
  - cbn [bind Monad_either]. rewrite keep_feature_loop. reflexivity.
Qed.

(** What the handler does with an exception of the decoder. *)
Lemma parse_features_not_decoded (s : string) (e : exn) :
  json_loads s = Raise e ->
  parse_features (JStr s)
  = match e with
    | JSONDecodeError =>
        Ok [JObj [("title", JStr "Model response"); ("description", JStr s)]]
    | _ => Raise e
    end.
Proof.
  intros He. unfold parse_features, py_json_loads. rewrite He. reflexivity.
Qed.

(** When the parsing of the content raises, and what. *)
Lemma parse_features_raises (content : json) (e : exn) :
  parse_features content = Raise e
  <-> (e = TypeError /\ forall s, content <> JStr s)
      \/ exists s,
           content = JStr s
           /\ ((json_loads s = Raise e /\ e <> JSONDecodeError)
               \/ (e = TypeError
                   /\ exists v, json_loads s = Ok v /\ is_scalar v = true)).
Proof.
  split.
  - intros H. destruct content as [| | | | s | |];
      try (inversion H; left; split; [reflexivity | intros s' Hs; discriminate Hs]).
    right. exists s. split; [reflexivity |].
    destruct (json_loads s) as [e' | v] eqn:Hv.
    + rewrite (parse_features_not_decoded s e' Hv) in H.
      left. destruct e'; try discriminate H; inversion H; subst;
        (split; [reflexivity | discriminate]).
    + rewrite (parse_features_decoded s v Hv) in H.
      right. destruct v; simpl in H; try discriminate H;
        inversion H; (split; [reflexivity |]); eexists;
        (split; [reflexivity | reflexivity]).
  - intros [[-> Hnot] | (s & -> & [[He Hne] | [-> (v & Hv & Hscalar)]])].
    + destruct content; try reflexivity. exfalso. now apply (Hnot s).
    + rewrite (parse_features_not_decoded s e He).
      destruct e; try reflexivity. now contradiction Hne.
    + rewrite (parse_features_decoded s v Hv).
      destruct v; try discriminate Hscalar; reflexivity.
Qed.

Lemma parse_features_records (content : json) (out : list json) :
  parse_features content = Ok out -> forallb is_feature_record out = true.
Proof.
  intros H. destruct content as [| | | | s | |]; try discriminate H.
  destruct (json_loads s) as [e | v] eqn:Hv.
  - rewrite (parse_features_not_decoded s e Hv) in H.
    destruct e; try discriminate H. inversion H. reflexivity.
  - rewrite (parse_features_decoded s v Hv) in H.
    destruct (py_iter v) as [e | items]; [discriminate H |].
    inversion H. apply features_of_records.
Qed.

Lemma run_print_features (features : list json) (w : world) :
  forallb is_feature_record features = true ->
  run (print_features features) w
  = (Ok tt, mkWorld (sent w) (stdout w ++ map feature_line features)).
Proof.
  revert w. induction features as [| f features IH]; intros w Hall.
  - cbn [print_features map]. rewrite run_ret. destruct w. simpl. now rewrite app_nil_r.
  - cbn [print_features]. simpl in Hall. apply andb_true_iff in Hall as [Hf Hall].
    destruct f as [| | | | | | d]; try discriminate Hf.
    destruct d as [| [k1 title] [| [k2 description] [| ? ?]]]; try discriminate Hf.
    apply andb_true_iff in Hf as [Hk1 Hk2].
    apply String.eqb_eq in Hk1, Hk2. subst k1 k2.
    rewrite run_bind, run_lift_result. cbn [py_getitem dict_get String.eqb Ascii.eqb Bool.eqb].
    rewrite run_bind, run_lift_result. cbn [py_getitem dict_get String.eqb Ascii.eqb Bool.eqb].
    rewrite run_bind, run_print. rewrite IH by exact Hall.
    cbn [sent stdout map feature_line]. now rewrite <- app_assoc.
Qed.

Variables (names : list string) (key model : string).
Variables (temperature : float) (max_tokens : Z).

Let reply : response :=
  remote (completion_request names key model temperature max_tokens).

(** X7. Once the reply carries a content, the call raises in three cases
    and no other: the content is not a string, and the exception is a
    [TypeError]; or [json.loads] raises on it something that is not a
    [JSONDecodeError] (a [RecursionError], a [ValueError]), and that
    exception comes out; or the content decodes to a number, a boolean or
    [null], and the exception is a [TypeError]. *)
Theorem generate_features_raises_iff (w : world) (data content : json) (e : exn)
  (Hnames : names <> [])
  (Hok : ok reply = true)
  (Hdata : response_json reply = Ok data)
  (Hcontent : first_choice_content data = Ok content) :
  fst (run (generate_features_from_figma names key model temperature max_tokens) w)
  = Raise e
  <-> (e = TypeError /\ forall s, content <> JStr s)
      \/ exists s,
           content = JStr s
           /\ ((json_loads s = Raise e /\ e <> JSONDecodeError)
               \/ (e = TypeError
                   /\ exists v, json_loads s = Ok v /\ is_scalar v = true)).
Proof.
  rewrite (run_generate _ _ _ _ _ _ Hnames). fold reply. simpl fst.
  rewrite Hok, Hdata. cbn [bind Monad_either]. rewrite Hcontent. cbn [bind Monad_either].
  apply parse_features_raises.
Qed.

(** X8. A content that decodes to a JSON object or to a JSON string gives
    the empty sequence: the loop visits the keys, or the characters, none
    of which is a mapping, and no error is reported. *)
Theorem generate_features_object_or_string (w : world) (data : json) (content : string)
    (v : json)
  (Hnames : names <> [])
  (Hok : ok reply = true)
  (Hdata : response_json reply = Ok data)
  (Hcontent : first_choice_content data = Ok (JStr content))
  (Hvalid : json_loads content = Ok v)
  (Hkind : (exists d, v = JObj d) \/ (exists s, v = JStr s)) :
  fst (run (generate_features_from_figma names key model temperature max_tokens) w)
  = Ok [].
Proof.
  rewrite (run_generate _ _ _ _ _ _ Hnames). fold reply. simpl fst.
  rewrite Hok, Hdata. cbn [bind Monad_either]. rewrite Hcontent. cbn [bind Monad_either].
  rewrite (parse_features_decoded content v Hvalid).
  destruct Hkind as [[d ->] | [s ->]]; cbn [py_iter];
    now rewrite features_of_strings.
Qed.

(** X9. A reply without ["choices"], or whose first choice has no
    ["message"], or whose message has no ["content"], is read as the empty
    content; as the empty text is not valid JSON, the result is the one
    placeholder record with an empty description. *)
Theorem generate_features_missing_content (w : world) (d : dict)
  (Hnames : names <> [])
  (Hok : ok reply = true)
  (Hdata : response_json reply = Ok (JObj d))
  (Hmissing :
     dict_get d "choices" = None
     \/ exists c rest,
          dict_get d "choices" = Some (JArr (JObj c :: rest))
          /\ (dict_get c "message" = None
              \/ exists m, dict_get c "message" = Some (JObj m)
                           /\ dict_get m "content" = None))
  (Hempty : json_loads "" = Raise JSONDecodeError) :
  fst (run (generate_features_from_figma names key model temperature max_tokens) w)
  = Ok [JObj [("title", JStr "Model response"); ("description", JStr "")]].
Proof.
  assert (Hcontent : first_choice_content (JObj d) = Ok (JStr "")).
  { unfold first_choice_content. cbn [bind Monad_either py_get].
    destruct Hmissing as [Hch | (c & rest & Hch & [Hmsg | (m & Hmsg & Hct)])];
      rewrite Hch; cbn [bind Monad_either py_get py_index0];
      rewrite ?Hmsg; cbn [bind Monad_either py_get]; rewrite ?Hct; reflexivity. }
  rewrite (run_generate _ _ _ _ _ _ Hnames). fold reply. simpl fst.
  rewrite Hok, Hdata. cbn [bind Monad_either]. rewrite Hcontent. cbn [bind Monad_either].
  unfold parse_features, py_json_loads. now rewrite Hempty.
Qed.

(** X10. A reply whose ["choices"] is the empty list makes the call raise
    an [IndexError], after its one request. *)
Theorem generate_features_no_choices (w : world) (d : dict)
  (Hnames : names <> [])
  (Hok : ok reply = true)
  (Hdata : response_json reply = Ok (JObj d))
  (Hchoices : dict_get d "choices" = Some (JArr [])) :
  run (generate_features_from_figma names key model temperature max_tokens) w
  = (Raise IndexError,
     mkWorld (sent w ++ [completion_request names key model temperature max_tokens])
       (stdout w)).
Proof.
  rewrite (run_generate _ _ _ _ _ _ Hnames). fold reply.
  rewrite Hok, Hdata. cbn [bind Monad_either].
  unfold first_choice_content. cbn [bind Monad_either py_get]. now rewrite Hchoices.
Qed.

(** X11. Whatever the reply, when the call returns, every element of its
    result is a mapping with exactly the keys [title] and [description],
    so the loop of [main] that reads both keys and prints a line per record
    cannot fail on it; and the call itself prints nothing. *)
Theorem generate_features_well_formed (w w' : world) (out : list json)
  (Hrun : run (generate_features_from_figma names key model temperature max_tokens) w
          = (Ok out, w')) :
  forallb is_feature_record out = true
  /\ stdout w' = stdout w
  /\ forall w0, run (print_features out) w0
                = (Ok tt, mkWorld (sent w0) (stdout w0 ++ map feature_line out)).
Proof.
  assert (Hrec : forallb is_feature_record out = true /\ stdout w' = stdout w).
  { destruct names as [| n ns] eqn:Hn.
    - inversion Hrun. subst. split; reflexivity.
    - rewrite run_generate in Hrun by discriminate.
      destruct (ok _); [| discriminate Hrun].
      destruct (response_json _) as [e | data]; [discriminate Hrun |].
      cbn [bind Monad_either] in Hrun.
      destruct (first_choice_content data) as [e | content]; [discriminate Hrun |].
      cbn [bind Monad_either] in Hrun.
      inversion Hrun as [[Hout Hw]]. split; [| reflexivity].
      now apply parse_features_records in Hout. }
  destruct Hrec as [Hrec Hstdout].
  split; [exact Hrec |]. split; [exact Hstdout |].
  intros w0. now apply run_print_features.
Qed.

End Replies.

Lemma get_file_undecodable_body_witness :
  fst (run (@get_file (test_platform (canned_server (mkResponse 200 "<html>")))
              sample_client "abc123") (mkWorld [] []))
  = Raise JSONDecodeError.
Proof.
  apply (@get_file_undecodable_body
           (test_platform (canned_server (mkResponse 200 "<html>")))
           sample_client "abc123" (mkWorld [] [])).
  - simpl. lia.
  - vm_compute. reflexivity.
Defined.

Lemma generate_features_raises_iff_witness :
  fst (run (@generate_features_from_figma
              (test_platform (canned_server (reply_with_content "null")))
              ["Login"] "sk-test" default_model default_temperature default_max_tokens)
         (mkWorld [] []))
  = Raise TypeError
  /\ fst (run (@generate_features_from_figma
                 (test_platform (canned_server (reply_with_content long_integer_content)))
                 ["Login"] "sk-test" default_model default_temperature
                 default_max_tokens)
            (mkWorld [] []))
     = Raise ValueError.
Proof.
  split.
  - apply (proj2 (@generate_features_raises_iff
                    (test_platform (canned_server (reply_with_content "null")))
                    ["Login"] "sk-test" default_model default_temperature
                    default_max_tokens (mkWorld [] [])
                    (reply_data "null") (JStr "null") TypeError
                    ltac:(discriminate) eq_refl ltac:(vm_compute; reflexivity) eq_refl)).
    right. exists "null". split; [reflexivity |]. right.
    split; [reflexivity |]. exists JNull.
    split; [vm_compute; reflexivity | reflexivity].
  - apply (proj2 (@generate_features_raises_iff
                    (test_platform
                       (canned_server (reply_with_content long_integer_content)))
                    ["Login"] "sk-test" default_model default_temperature
                    default_max_tokens (mkWorld [] [])
                    (reply_data long_integer_content) (JStr long_integer_content)
                    ValueError
                    ltac:(discriminate) eq_refl ltac:(vm_compute; reflexivity) eq_refl)).
    right. exists long_integer_content. split; [reflexivity |]. left.
    split; [vm_compute; reflexivity | discriminate].
Defined.

Lemma generate_features_object_or_string_witness :
  fst (run (@generate_features_from_figma
              (test_platform (canned_server
                 (reply_with_content ("{" ++ q "title" ++ ":" ++ q "Login flow" ++ "}"))))
              ["Login"] "sk-test" default_model default_temperature default_max_tokens)
         (mkWorld [] []))
  = Ok [].
Proof.
  apply (@generate_features_object_or_string
           (test_platform (canned_server
              (reply_with_content ("{" ++ q "title" ++ ":" ++ q "Login flow" ++ "}"))))
           ["Login"] "sk-test" default_model default_temperature default_max_tokens
           (mkWorld [] [])
           (JObj [("choices",
                   JArr [JObj [("message",
                      JObj [("content",
                             JStr ("{" ++ q "title" ++ ":" ++ q "Login flow" ++ "}"))])]])])
           ("{" ++ q "title" ++ ":" ++ q "Login flow" ++ "}")
           (JObj [("title", JStr "Login flow")])).
  - discriminate.
  - reflexivity.
  - vm_compute. reflexivity.
  - reflexivity.
  - vm_compute. reflexivity.
  - left. eexists. reflexivity.
Defined.

Lemma generate_features_missing_content_witness :
  fst (run (@generate_features_from_figma
              (test_platform (canned_server (mkResponse 200 "{}")))
              ["Login"] "sk-test" default_model default_temperature default_max_tokens)
         (mkWorld [] []))
  = Ok [JObj [("title", JStr "Model response"); ("description", JStr "")]].
Proof.
  apply (@generate_features_missing_content
           (test_platform (canned_server (mkResponse 200 "{}")))
           ["Login"] "sk-test" default_model default_temperature default_max_tokens
           (mkWorld [] []) []).
  - discriminate.
  - reflexivity.
  - vm_compute. reflexivity.
  - left. reflexivity.
  - vm_compute. reflexivity.
Defined.

Lemma generate_features_no_choices_witness :
  fst (run (@generate_features_from_figma
              (test_platform (canned_server
                 (mkResponse 200 ("{" ++ q "choices" ++ ": []}"))))
              ["Login"] "sk-test" default_model default_temperature default_max_tokens)
         (mkWorld [] []))
  = Raise IndexError.
Proof.
  rewrite (@generate_features_no_choices
             (test_platform (canned_server
                (mkResponse 200 ("{" ++ q "choices" ++ ": []}"))))
             ["Login"] "sk-test" default_model default_temperature default_max_tokens
             (mkWorld [] []) [("choices", JArr [])]).
  - reflexivity.
  - discriminate.
  - reflexivity.
  - vm_compute. reflexivity.
  - reflexivity.
Defined.

Lemma generate_features_well_formed_witness :
  forallb is_feature_record
    [JObj [("title", JStr "Login flow"); ("description", JStr "")]] = true.
Proof.
  apply (proj1 (@generate_features_well_formed
                  (test_platform (canned_server (reply_with_content login_flow_content)))
                  ["Login"] "sk-test" default_model default_temperature
                  default_max_tokens (mkWorld [] [])
                  (snd (run (@generate_features_from_figma
                               (test_platform
                                  (canned_server (reply_with_content login_flow_content)))
                               ["Login"] "sk-test" default_model default_temperature
                               default_max_tokens) (mkWorld [] [])))
                  [JObj [("title", JStr "Login flow"); ("description", JStr "")]]
                  ltac:(vm_compute; reflexivity))).
Defined.

(** ** The whole run *)

(** X12. A variable that is set to the empty string counts as missing:
    whenever one of the three variables is absent or empty, [main] prints
    the guidance message, which names the three variables that must be
    set, returns, and sends nothing. *)
Theorem main_absent_or_empty_variable {platform : Platform}
    (environ : string -> option string) (w : world) (k : string)
  (Hk : In k ["FIGMA_TOKEN"; "FIGMA_FILE_KEY"; "OPENAI_API_KEY"])
  (Hvalue : environ k = None \/ environ k = Some "") :
  run (main environ) w
  = (Ok tt,
     mkWorld (sent w)
       (stdout w
        ++ ["FIGMA_TOKEN, FIGMA_FILE_KEY and OPENAI_API_KEY environment variables "
         ++ "must be set to run this example."])).
Proof.
  assert (Hfalsy : env_truthy (environ k) = false)
    by (destruct Hvalue as [H | H]; now rewrite H).
  unfold main.
  assert (Hcond : env_truthy (environ "FIGMA_TOKEN")
                  && env_truthy (environ "FIGMA_FILE_KEY")
                  && env_truthy (environ "OPENAI_API_KEY") = false).
  { destruct Hk as [<- | [<- | [<- | []]]]; rewrite Hfalsy;
      rewrite ?andb_false_r; reflexivity. }
  rewrite Hcond. cbn [negb]. apply run_print.
Qed.

Lemma main_absent_or_empty_variable_witness :
  run (@main (test_platform (canned_server multiple_choices)) empty_key_environ)
    (mkWorld [] [])
  = (Ok tt,
     mkWorld []
       ["FIGMA_TOKEN, FIGMA_FILE_KEY and OPENAI_API_KEY environment variables "
         ++ "must be set to run this example."]).
Proof.
  apply (@main_absent_or_empty_variable
           (test_platform (canned_server multiple_choices)) empty_key_environ
           (mkWorld [] []) "FIGMA_FILE_KEY").
  - right. left. reflexivity.
  - right. reflexivity.
Defined.

Lemma as_strs_map (strs : list string) : as_strs (map JStr strs) = Ok strs.
Proof.
  induction strs as [| x strs IH]; simpl; [reflexivity |]. now rewrite IH.
Qed.

Lemma as_strs_non_str (names : list json) (v : json) :
  In v names -> (forall x, v <> JStr x) -> as_strs names = Raise TypeError.
Proof.
  induction names as [| n names IH]; [contradiction |].
  intros [-> | Hin] Hv.
  - destruct v; try reflexivity. exfalso. now apply (Hv s).
  - destruct n; try reflexivity. simpl. now rewrite (IH Hin Hv).
Qed.


Section MainRuns.

Context {platform : Platform}.

Variable environ : string -> option string.

Hypothesis Htoken : env_truthy (environ "FIGMA_TOKEN") = true.
Hypothesis Hfile : env_truthy (environ "FIGMA_FILE_KEY") = true.
Hypothesis Hkey : env_truthy (environ "OPENAI_API_KEY") = true.

(** The request [main] sends to the design service. *)
Let file_rq : request :=
  mkRequest GET
    ("https://api.figma.com/v1/files/" ++ env_value (environ "FIGMA_FILE_KEY"))
    [("X-Figma-Token", env_value (environ "FIGMA_TOKEN"))] None.

(** With the environment set, [main] is the chain of its stages: the
    file, the names, the features, the lines. *)
Lemma run_main_configured (w : world) :
  let w1 := mkWorld (sent w ++ [file_rq]) (stdout w) in
  run (main environ) w
  = match (if ok (remote file_rq) then response_json (remote file_rq)
           else Raise (HTTPError (remote file_rq))) with
    | inl e => (Raise e, w1)
    | inr file_data =>
        match extract_frame_names file_data with
        | inl e => (Raise e, w1)
        | inr [] =>
            (Ok tt, mkWorld (sent w1)
                      (stdout w1 ++ ["No frames were found in the Figma document."]))
        | inr (n :: ns) =>
            match as_strs (n :: ns) with
            | inl e => (Raise e, w1)
            | inr strs =>
                match run (generate_features_from_figma strs
                             (env_value (environ "OPENAI_API_KEY"))
                             default_model default_temperature default_max_tokens)
                        (mkWorld (sent w1)
                           (stdout w1 ++
                            ["Found " ++ len_str (n :: ns) ++ " top‑level frame(s): "
                             ++ String.concat ", " strs]))
                with
                | (inl e, w3) => (Raise e, w3)
                | (inr features, w3) =>
                    run (print_features features)
                      (mkWorld (sent w3)
                         (stdout w3 ++ [nl ++ "Generated feature suggestions:" ++ nl]))
                end
            end
        end
    end.
Proof.
  intros w1. unfold main. rewrite Htoken, Hfile, Hkey. cbn [andb negb].
  rewrite run_bind, run_get_file.
  change (mkRequest GET _ _ None) with file_rq. fold w1.
  destruct (if ok (remote file_rq) then response_json (remote file_rq)
            else Raise (HTTPError (remote file_rq))) as [e | file_data];
    [reflexivity |].
  rewrite run_bind, run_lift_result.
  destruct (extract_frame_names file_data) as [e | [| n ns]]; [reflexivity | |].
  - apply run_print.
  - rewrite run_bind, run_lift_result. unfold py_join. cbn [bind Monad_either].
    destruct (as_strs (n :: ns)) as [e | strs]; [reflexivity |].
    rewrite run_bind, run_lift_result. rewrite run_bind, run_print.
    rewrite run_bind.
    destruct (run (generate_features_from_figma strs _ _ _ _) _) as [[e | features] w3];
      [reflexivity |].
    rewrite run_bind, run_print. reflexivity.
Qed.

(** X13. With the environment set, a readable file and no frame in it,
    [main] prints that no frames were found and returns: the design
    service was asked once and the completion service not at all. *)
Theorem main_no_frames (w : world) (file_data : json)
  (Hok : ok (remote file_rq) = true)
  (Hbody : json_loads (text (remote file_rq)) = Ok file_data)
  (Hnone : extract_frame_names file_data = Ok []) :
  run (main environ) w
  = (Ok tt,
     mkWorld (sent w ++ [file_rq])
       (stdout w ++ ["No frames were found in the Figma document."])).
Proof.
  rewrite run_main_configured. rewrite Hok. unfold response_json. rewrite Hbody.
  now rewrite Hnone.
Qed.

(** X14. With the environment set, a body of the design service on which
    the decoder raises (a body that is not valid JSON, for one), or a
    document on which the extraction raises, ends [main] with that
    exception: nothing is caught, nothing is printed and the completion
    service is not asked. *)
Theorem main_file_stage_failure (w : world) (e : exn)
  (Hok : ok (remote file_rq) = true)
  (Hfail : json_loads (text (remote file_rq)) = Raise e
           \/ exists file_data,
                json_loads (text (remote file_rq)) = Ok file_data
                /\ extract_frame_names file_data = Raise e) :
  run (main environ) w = (Raise e, mkWorld (sent w ++ [file_rq]) (stdout w)).
Proof.
  rewrite run_main_configured. rewrite Hok. unfold response_json.
  destruct Hfail as [Hbody | (file_data & Hbody & Hraise)]; rewrite Hbody.
  - reflexivity.
  - now rewrite Hraise.
Qed.

(** X15. A frame whose name is not a string (a number, say) passes the
    extraction but makes [main] raise a [TypeError] when it joins the
    names: before the summary line is printed and before the completion
    service is asked. *)
Theorem main_non_string_name (w : world) (file_data : json) (names : list json)
    (v : json)
  (Hok : ok (remote file_rq) = true)
  (Hbody : json_loads (text (remote file_rq)) = Ok file_data)
  (Hnames : extract_frame_names file_data = Ok names)
  (Hin : In v names)
  (Hv : forall x, v <> JStr x) :
  run (main environ) w = (Raise TypeError, mkWorld (sent w ++ [file_rq]) (stdout w)).
Proof.
  rewrite run_main_configured. rewrite Hok. unfold response_json. rewrite Hbody, Hnames.
  destruct names as [| n ns]; [contradiction |].
  now rewrite (as_strs_non_str (n :: ns) v Hin Hv).
Qed.

(** X16. The successful run.  With the environment set, a file whose
    frames are named by the strings [strs] and a completion reply whose
    content parses to [features], [main] returns after two requests, the
    file request and then the completion request for exactly those names
    with the model [gpt-4], the temperature 0.2 and at most 512 tokens; it
    prints the summary
    line with the count and the names joined by a comma and a space, the
    heading, and one line per feature, in order. *)
Theorem main_success (w : world) (file_data : json) (strs : list string)
    (data content : json) (features : list json) :
  let completion_rq :=
    completion_request strs (env_value (environ "OPENAI_API_KEY"))
      "gpt-4" 0x1.999999999999ap-3%float 512 in
  ok (remote file_rq) = true ->
  json_loads (text (remote file_rq)) = Ok file_data ->
  extract_frame_names file_data = Ok (map JStr strs) ->
  strs <> [] ->
  ok (remote completion_rq) = true ->
  response_json (remote completion_rq) = Ok data ->
  first_choice_content data = Ok content ->
  parse_features content = Ok features ->
  run (main environ) w
  = (Ok tt,
     mkWorld (sent w ++ [file_rq; completion_rq])
       (stdout w
        ++ ["Found " ++ len_str strs ++ " top‑level frame(s): " ++ String.concat ", " strs;
            String "010"%char "Generated feature suggestions:"
            ++ String "010"%char EmptyString]
        ++ map feature_line features)).
Proof.
  intros completion_rq Hok Hbody Hnames Hstrs Hcok Hdata Hcontent Hfeatures.
  rewrite run_main_configured. rewrite Hok. unfold response_json at 1.
  rewrite Hbody, Hnames.
  destruct strs as [| x xs]; [contradiction |].
  change (JStr x :: map JStr xs) with (map JStr (x :: xs)).
  cbn [map]. change (JStr x :: map JStr xs) with (map JStr (x :: xs)).
  rewrite as_strs_map.
  rewrite run_generate by discriminate.
  change (completion_request _ _ default_model default_temperature default_max_tokens)
    with completion_rq.
  rewrite Hcok, Hdata. cbn [bind Monad_either]. rewrite Hcontent.
  cbn [bind Monad_either]. rewrite Hfeatures.
  rewrite run_print_features by (now apply parse_features_records in Hfeatures).
  cbn [sent stdout]. unfold len_str. rewrite length_map.
  rewrite <- !app_assoc. reflexivity.
Qed.

(** X17. When the completion service answers with an error status, [main]
    raises the [HTTPError] after the summary line is on the output: both
    requests were sent, and neither the heading nor any feature line is
    printed. *)
Theorem main_completion_error (w : world) (file_data : json) (strs : list string) :
  let completion_rq :=
    completion_request strs (env_value (environ "OPENAI_API_KEY"))
      "gpt-4" 0x1.999999999999ap-3%float 512 in
  ok (remote file_rq) = true ->
  json_loads (text (remote file_rq)) = Ok file_data ->
  extract_frame_names file_data = Ok (map JStr strs) ->
  strs <> [] ->
  400 <= status_code (remote completion_rq) < 600 ->
  run (main environ) w
  = (Raise (HTTPError (remote completion_rq)),
     mkWorld (sent w ++ [file_rq; completion_rq])
       (stdout w
        ++ ["Found " ++ len_str strs ++ " top‑level frame(s): "
            ++ String.concat ", " strs])).
Proof.
  intros completion_rq Hok Hbody Hnames Hstrs Hstatus.
  rewrite run_main_configured. rewrite Hok. unfold response_json at 1.
  rewrite Hbody, Hnames.
  destruct strs as [| x xs]; [contradiction |].
  cbn [map]. change (JStr x :: map JStr xs) with (map JStr (x :: xs)).
  rewrite as_strs_map.
  rewrite run_generate by discriminate.
  change (completion_request _ _ default_model default_temperature default_max_tokens)
    with completion_rq.
  apply ok_false_iff in Hstatus. rewrite Hstatus.
  cbn [sent stdout]. unfold len_str. rewrite length_map.
  rewrite <- !app_assoc. reflexivity.
Qed.

End MainRuns.

Lemma main_no_frames_witness :
  run (@main (test_platform (canned_server (file_response no_pages_document)))
         full_environ) (mkWorld [] [])
  = (Ok tt,
     mkWorld [sample_file_request] ["No frames were found in the Figma document."]).
Proof.
  apply (@main_no_frames
           (test_platform (canned_server (file_response no_pages_document)))
           full_environ eq_refl eq_refl eq_refl (mkWorld [] []) no_pages_document).
  - reflexivity.
  - vm_compute. reflexivity.
  - reflexivity.
Defined.

Lemma main_file_stage_failure_witness :
  run (@main (test_platform (canned_server (mkResponse 200 "[]"))) full_environ)
    (mkWorld [] [])
  = (Raise AttributeError, mkWorld [sample_file_request] []).
Proof.
  apply (@main_file_stage_failure
           (test_platform (canned_server (mkResponse 200 "[]")))
           full_environ eq_refl eq_refl eq_refl (mkWorld [] []) AttributeError).
  - reflexivity.
  - right. exists (JArr []). split; [vm_compute; reflexivity | reflexivity].
Defined.

Lemma main_non_string_name_witness :
  run (@main (test_platform (canned_server (file_response numbered_document)))
         full_environ) (mkWorld [] [])
  = (Raise TypeError, mkWorld [sample_file_request] []).
Proof.
  apply (@main_non_string_name
           (test_platform (canned_server (file_response numbered_document)))
           full_environ eq_refl eq_refl eq_refl (mkWorld [] [])
           numbered_document [JInt 7] (JInt 7)).
  - reflexivity.
  - vm_compute. reflexivity.
  - reflexivity.
  - left. reflexivity.
  - intros x Hx. discriminate Hx.
Defined.

Lemma main_success_witness :
  run (@main (test_platform
                (routing_server (file_response login_document)
                   (reply_with_content login_flow_content)))
         full_environ) (mkWorld [] [])
  = (Ok tt,
     mkWorld
       [sample_file_request;
        @completion_request
          (test_platform
             (routing_server (file_response login_document)
                (reply_with_content login_flow_content)))
          ["Login"; "Login"] "sk-test"
          default_model default_temperature default_max_tokens]
       ["Found 2 top‑level frame(s): Login, Login";
        String "010"%char "Generated feature suggestions:"
        ++ String "010"%char EmptyString;
        "- Login flow: "]).
Proof.
  apply (@main_success
           (test_platform
              (routing_server (file_response login_document)
                 (reply_with_content login_flow_content)))
           full_environ eq_refl eq_refl eq_refl (mkWorld [] [])
           login_document ["Login"; "Login"]
           (JObj [("choices",
                   JArr [JObj [("message",
                                JObj [("content", JStr login_flow_content)])]])])
           (JStr login_flow_content)
           [JObj [("title", JStr "Login flow"); ("description", JStr "")]]).
  - reflexivity.
  - vm_compute. reflexivity.
  - reflexivity.
  - discriminate.
  - reflexivity.
  - vm_compute. reflexivity.
  - reflexivity.
  - vm_compute. reflexivity.
Defined.

Lemma main_completion_error_witness :
  run (@main (test_platform
                (routing_server (file_response login_document)
                   (mkResponse 429 "Too many requests")))
         full_environ) (mkWorld [] [])
  = (Raise (HTTPError (mkResponse 429 "Too many requests")),
     mkWorld
       [sample_file_request;
        @completion_request
          (test_platform
             (routing_server (file_response login_document)
                (mkResponse 429 "Too many requests")))
          ["Login"; "Login"] "sk-test"
          default_model default_temperature default_max_tokens]
       ["Found 2 top‑level frame(s): Login, Login"]).
Proof.
  apply (@main_completion_error
           (test_platform
              (routing_server (file_response login_document)
                 (mkResponse 429 "Too many requests")))
           full_environ eq_refl eq_refl eq_refl (mkWorld [] [])
           login_document ["Login"; "Login"]).
  - reflexivity.
  - vm_compute. reflexivity.
  - reflexivity.
  - discriminate.
  - simpl. lia.
Defined.

(** ** A content the handler does not cover *)

(** C2. The claim, and the comment above the handler ("if the model
    didn't respond with valid JSON, return the raw text as a single
    element"), ask for the placeholder on every content that is not valid
    JSON; the code gives it only when [json.loads] raises a
    [JSONDecodeError].  On a content on which [json.loads] raises anything
    else -- a thousand opening brackets and no closing one, which is not
    valid JSON and is a [RecursionError] -- the handler does not apply and
    [generate_features_from_figma] raises that exception. *)
Theorem generate_features_decoder_exception {platform : Platform}
    (names : list string) (key model : string) (temperature : float) (max_tokens : Z)
    (w : world) (data : json) (content : string) (e : exn)
  (Hnames : names <> [])
  (Hok : ok (remote (completion_request names key model temperature max_tokens)) = true)
  (Hdata : response_json
             (remote (completion_request names key model temperature max_tokens))
           = Ok data)
  (Hcontent : first_choice_content data = Ok (JStr content))
  (Hraise : json_loads content = Raise e)
  (Hother : e <> JSONDecodeError) :
  run (generate_features_from_figma names key model temperature max_tokens) w
  = (Raise e,
     mkWorld (sent w ++ [completion_request names key model temperature max_tokens])
       (stdout w)).
Proof.
  rewrite (run_generate _ _ _ _ _ _ Hnames).
  rewrite Hok, Hdata. cbn [bind Monad_either]. rewrite Hcontent. cbn [bind Monad_either].
  rewrite (parse_features_not_decoded content e Hraise).
  destruct e; try reflexivity. now contradiction Hother.
Qed.

Lemma generate_features_decoder_exception_witness :
  fst (run (@generate_features_from_figma
              (test_platform (canned_server (reply_with_content deep_content)))
              ["Login"] "sk-test" default_model default_temperature default_max_tokens)
         (mkWorld [] []))
  = Raise RecursionError.
Proof.
  rewrite (@generate_features_decoder_exception
             (test_platform (canned_server (reply_with_content deep_content)))
             ["Login"] "sk-test" default_model default_temperature default_max_tokens
             (mkWorld [] []) (reply_data deep_content) deep_content RecursionError).
  - reflexivity.
  - discriminate.
  - reflexivity.
  - vm_compute. reflexivity.
  - reflexivity.
  - vm_compute. reflexivity.
  - discriminate.
Defined.
